(** * OpenLineage Spark-property injection (compat shim, legacy path)

    A shallow embedding of
    [airflow/providers/common/compat/openlineage/utils/spark.py]:
    the two helpers
    [inject_parent_job_information_into_spark_properties] and
    [inject_transport_information_into_spark_properties] as they are bound
    when the unified module is missing but the legacy macros and listener
    modules import.

    Python values are modelled as follows.
    - A properties [dict] with string keys and string values is a
      [gmap string string]; dict equality ignores insertion order, and so
      does [gmap] equality.
    - A [float] is an IEEE-754 binary64, modelled by the Standard Library's
      [spec_float] at precision 53 and maximal exponent 1024, with the
      correctly rounded product [SFmul].
    - Raising is a [Raise] result; logging and calls into the OpenLineage
      provider are recorded in a trace of events. *)

From Stdlib Require Import ZArith QArith Qround String Ascii List.
From Stdlib Require Import Floats.SpecFloat.
From stdpp Require Import base option gmap strings list fin_maps pretty.

Local Open Scope string_scope.
Local Open Scope Z_scope.

(** ** Exceptions and results *)

Inductive exn :=
| KeyError (key : string)
| ValueError (msg : string)
| OverflowError (msg : string).

Inductive result (A : Type) :=
| Ok (a : A)
| Raise (e : exn).
Arguments Ok {A} a.
Arguments Raise {A} e.

(** ** Python floats *)

Module PyFloat.

(** binary64: 53 bits of precision, exponents below 1024. *)
Definition prec : Z := 53.
Definition emax : Z := 1024.

(** [float(n)] for an [int] [n]: the nearest binary64, ties to even. *)
Definition of_int (n : Z) : spec_float :=
  binary_normalize prec emax n 0 false.

(** [x * y] on floats: the correctly rounded product. *)
Definition mul (x y : spec_float) : spec_float := SFmul prec emax x y.

(** [0.0 <= x]; false on NaN, as every comparison with NaN is. *)
Definition nonneg (x : spec_float) : bool := SFleb (S754_zero false) x.

(** Neither an infinity nor a NaN. *)
Definition is_finite (x : spec_float) : bool :=
  match x with
  | S754_zero _ | S754_finite _ _ _ => true
  | S754_infinity _ | S754_nan => false
  end.

(** [int(x)]: the integral part of [x], rounding toward zero.  The
    magnitude [m * 2^e] is shifted ([Z.shiftl] by a negative amount
    shifts right), then the sign is applied.  Infinities and NaN raise. *)
Definition to_int (x : spec_float) : result Z :=
  match x with
  | S754_nan => Raise (ValueError "cannot convert float NaN to integer")
  | S754_infinity _ =>
      Raise (OverflowError "cannot convert float infinity to integer")
  | S754_zero _ => Ok 0
  | S754_finite s m e => Ok (cond_Zopp s (Z.shiftl (Zpos m) e))
  end.

(** The rational number a finite float denotes: [(-1)^s * m * 2^e]. *)
Definition to_Q (x : spec_float) : option Q :=
  match x with
  | S754_zero _ => Some (0 # 1)%Q
  | S754_finite s m e =>
      let mag :=
        match e with
        | Z0 => (Zpos m # 1)%Q
        | Zpos p => (Zpos m * 2 ^ Zpos p # 1)%Q
        | Zneg p => (Zpos m # 2 ^ p)%Q
        end in
      Some (if s then Qopp mag else mag)
  | S754_infinity _ | S754_nan => None
  end.

(** [floor] of a finite float, as the mathematical floor of its value. *)
Definition floor (x : spec_float) : option Z := Qfloor <$> to_Q x.

End PyFloat.

(** [str(n)] for an [int] [n]: decimal digits, with a leading minus sign
    for negative numbers. *)
Definition str_of_int (n : Z) : string := pretty n.

(** ** Python dicts *)

(** [s.startswith(pre)]. *)
Definition startswith (s pre : string) : bool := String.prefix pre s.

(** [any(str(key).startswith(pre) for key in properties)]; keys are
    strings, on which [str] is the identity. *)
Definition any_key_startswith (pre : string) (properties : gmap string string)
  : bool :=
  existsb (fun key => startswith key pre) (map_to_list properties).*1.

(** A dict display [{k1: v1, ..., kn: vn}]: entries are stored left to
    right, a later one replacing an earlier one with the same key. *)
Definition dict_display (entries : list (string * string))
  : gmap string string :=
  foldl (fun d kv => <[kv.1 := kv.2]> d) ∅ entries.

(** [{**a, **b}]: a fresh dict with the entries of [a] overlaid by those of
    [b]. stdpp's union prefers its left operand. *)
Definition dict_merge (a b : gmap string string) : gmap string string :=
  b ∪ a.

(** Truthiness of an optional string: [None] and [""] are falsy. *)
Definition truthy (v : option string) : bool :=
  match v with
  | Some s => negb (String.eqb s "")
  | None => false
  end.

(** ** The transport descriptor of the OpenLineage client *)

(** [transport.config.auth]: a token provider.  [has_api_key] is
    [hasattr(auth, "api_key")]; [get_bearer] is what the accessor returns
    ([None] or a string), the same on each call. *)
Record TokenProvider := {
  has_api_key : bool;
  get_bearer : option string;
}.

(** [transport.config].  [custom_headers] is [None] when the attribute is
    missing or holds [None], and otherwise the [items()] of the dict, in
    iteration order. *)
Record HttpConfig := {
  auth : TokenProvider;
  custom_headers : option (list (string * string));
}.

Record Transport := {
  kind : string;
  url : string;
  endpoint : string;
  timeout : spec_float;
  compression : option string;
  config : HttpConfig;
}.

(** ** Effects: a trace of events and a result *)

(** What a call does besides returning: the log lines it emits and the
    calls it makes into the OpenLineage provider, in order. *)
Inductive event (Object : Type) :=
| LogInfo (msg : string) (args : list string)
| CallLineageJobNamespace
| CallLineageJobName (ti : Object)
| CallLineageRunId (ti : Object)
| CallClientTransport.
Arguments LogInfo {Object} msg args.
Arguments CallLineageJobNamespace {Object}.
Arguments CallLineageJobName {Object} ti.
Arguments CallLineageRunId {Object} ti.
Arguments CallClientTransport {Object}.

(** An event is a call into the provider (anything but a log line). *)
Definition is_external_call {Object} (ev : event Object) : bool :=
  match ev with
  | LogInfo _ _ => false
  | _ => true
  end.

(** A computation: the events so far, and a value or an exception. *)
Definition M (Object A : Type) : Type := list (event Object) * result A.

Definition ret {Object A} (a : A) : M Object A := ([], Ok a).

Definition bind {Object A B} (c : M Object A) (k : A -> M Object B)
  : M Object B :=
  match c with
  | (tr, Ok a) => let (tr', r) := k a in ((tr ++ tr')%list, r)
  | (tr, Raise e) => (tr, Raise e)
  end.

Definition emit {Object} (ev : event Object) : M Object unit := ([ev], Ok tt).

Definition lift {Object A} (r : result A) : M Object A := ([], r).

Notation "'let!' x ':=' c 'in' k" := (bind c (fun x => k))
  (at level 10, x name, c at level 100, k at level 200).
Notation "'do!' c 'in' k" := (bind c (fun _ => k))
  (at level 10, c at level 100, k at level 200).

(** [d[key]] on a dict-like context: [KeyError] when the key is missing. *)
Definition getitem {V} (d : gmap string V) (key : string) : result V :=
  match d !! key with
  | Some v => Ok v
  | None => Raise (KeyError key)
  end.

(** ** The two injectors *)

Section Legacy.

(** Python objects held by the execution context, the task instance
    among them. *)
Context {Object : Type}.

(** The legacy macros of [airflow.providers.openlineage.plugins.macros]:
    what [lineage_job_namespace()] returns, and [lineage_job_name] and
    [lineage_run_id] as functions of the task instance. *)
Variable lineage_job_namespace : string.
Variable lineage_job_name : Object -> string.
Variable lineage_run_id : Object -> string.

(** What
    [get_openlineage_listener().adapter.get_or_create_openlineage_client().transport]
    evaluates to. *)
Variable client_transport : Transport.

Definition log_info (msg : string) (args : list string) : M Object unit :=
  emit (LogInfo msg args).

Definition call_lineage_job_namespace : M Object string :=
  do! emit CallLineageJobNamespace in ret lineage_job_namespace.

Definition call_lineage_job_name (ti : Object) : M Object string :=
  do! emit (CallLineageJobName ti) in ret (lineage_job_name ti).

Definition call_lineage_run_id (ti : Object) : M Object string :=
  do! emit (CallLineageRunId ti) in ret (lineage_run_id ti).

Definition call_client_transport : M Object Transport :=
  do! emit CallClientTransport in ret client_transport.

Definition parent_skip_msg : string :=
  "Some OpenLineage properties with parent job information are already present in Spark properties. Skipping the injection of OpenLineage parent job information into Spark properties.".

Definition transport_skip_msg : string :=
  "Some OpenLineage properties with transport information are already present in Spark properties. Skipping the injection of OpenLineage transport information into Spark properties.".

Definition transport_unsupported_msg : string :=
  "OpenLineage transport type `%s` does not support automatic injection of OpenLineage transport information into Spark properties.".

Definition inject_parent_job_information_into_spark_properties
  (properties : gmap string string) (context : gmap string Object)
  : M Object (gmap string string) :=
  if any_key_startswith "spark.openlineage.parent" properties then
    do! log_info parent_skip_msg [] in
    ret properties
  else
    let! ti := lift (getitem context "ti") in
    let! namespace := call_lineage_job_namespace in
    let! name := call_lineage_job_name ti in
    let! run_id := call_lineage_run_id ti in
    let ol_parent_job_properties :=
      dict_display
        [ ("spark.openlineage.parentJobNamespace", namespace);
          ("spark.openlineage.parentJobName", name);
          ("spark.openlineage.parentRunId", run_id) ] in
    ret (dict_merge properties ol_parent_job_properties).

(** The [for key, value in custom_headers.items()] loop. *)
Definition add_custom_headers (headers : list (string * string))
  (transport_properties : gmap string string) : gmap string string :=
  foldl
    (fun d kv => <["spark.openlineage.transport.headers." ++ kv.1 := kv.2]> d)
    transport_properties headers.

Definition inject_transport_information_into_spark_properties
  (properties : gmap string string) (context : gmap string Object)
  : M Object (gmap string string) :=
  if any_key_startswith "spark.openlineage.transport" properties then
    do! log_info transport_skip_msg [] in
    ret properties
  else
    let! transport := call_client_transport in
    if negb (String.eqb (kind transport) "http") then
      do! log_info transport_unsupported_msg [kind transport] in
      ret ∅
    else
      let! millis :=
        lift (PyFloat.to_int
                (PyFloat.mul (timeout transport) (PyFloat.of_int 1000))) in
      let transport_properties :=
        dict_display
          [ ("spark.openlineage.transport.type", "http");
            ("spark.openlineage.transport.url", url transport);
            ("spark.openlineage.transport.endpoint", endpoint transport);
            ("spark.openlineage.transport.timeoutInMillis",
              str_of_int millis) ] in
      let transport_properties :=
        match compression transport with
        | Some c =>
            if truthy (Some c)
            then <["spark.openlineage.transport.compression" := c]>
                   transport_properties
            else transport_properties
        | None => transport_properties
        end in
      let transport_properties :=
        if has_api_key (auth (config transport))
           && truthy (get_bearer (auth (config transport)))
        then
          match get_bearer (auth (config transport)) with
          | Some bearer =>
              <["spark.openlineage.transport.auth.apiKey" := bearer]>
                (<["spark.openlineage.transport.auth.type" := "api_key"]>
                   transport_properties)
          | None => transport_properties
          end
        else transport_properties in
      let transport_properties :=
        match custom_headers (config transport) with
        | Some (h :: hs) => add_custom_headers (h :: hs) transport_properties
        | Some [] | None => transport_properties
        end in
      ret (dict_merge properties transport_properties).

End Legacy.

(** The dict that the http branch of
    [inject_transport_information_into_spark_properties] assembles before
    the final merge, stage by stage, as a function of the transport and of
    the timeout in milliseconds; [inject_transport_http] below shows that
    this is what the function merges into the properties. *)
Definition base_properties (transport : Transport) (millis : Z)
  : gmap string string :=
  dict_display
    [ ("spark.openlineage.transport.type", "http");
      ("spark.openlineage.transport.url", url transport);
      ("spark.openlineage.transport.endpoint", endpoint transport);
      ("spark.openlineage.transport.timeoutInMillis", str_of_int millis) ].

Definition with_compression (transport : Transport)
  (transport_properties : gmap string string) : gmap string string :=
  match compression transport with
  | Some c =>
      if truthy (Some c)
      then <["spark.openlineage.transport.compression" := c]>
             transport_properties
      else transport_properties
  | None => transport_properties
  end.

Definition with_auth (transport : Transport)
  (transport_properties : gmap string string) : gmap string string :=
  if has_api_key (auth (config transport))
     && truthy (get_bearer (auth (config transport)))
  then
    match get_bearer (auth (config transport)) with
    | Some bearer =>
        <["spark.openlineage.transport.auth.apiKey" := bearer]>
          (<["spark.openlineage.transport.auth.type" := "api_key"]>
             transport_properties)
    | None => transport_properties
    end
  else transport_properties.

Definition with_custom_headers (transport : Transport)
  (transport_properties : gmap string string) : gmap string string :=
  match custom_headers (config transport) with
  | Some (h :: hs) => add_custom_headers (h :: hs) transport_properties
  | Some [] | None => transport_properties
  end.

Definition http_transport_properties (transport : Transport) (millis : Z)
  : gmap string string :=
  with_custom_headers transport
    (with_auth transport
       (with_compression transport (base_properties transport millis))).

(** ** Sample inputs *)

Definition no_auth : TokenProvider :=
  {| has_api_key := false; get_bearer := None |}.

Definition api_key_auth : TokenProvider :=
  {| has_api_key := true; get_bearer := Some "Bearer secret" |}.

(** An http transport with the default timeout of 5.0 seconds. *)
Definition sample_http : Transport :=
  {| kind := "http"; url := "http://localhost:5000";
     endpoint := "api/v1/lineage"; timeout := PyFloat.of_int 5;
     compression := None;
     config := {| auth := no_auth; custom_headers := None |} |}.

(** The same with gzip compression, an API key and one custom header. *)
Definition sample_http_full : Transport :=
  {| kind := "http"; url := "http://localhost:5000";
     endpoint := "api/v1/lineage"; timeout := PyFloat.of_int 5;
     compression := Some "gzip";
     config := {| auth := api_key_auth;
                  custom_headers := Some [("X-Foo", "bar")] |} |}.

(** A transport of another kind. *)
Definition sample_kafka : Transport :=
  {| kind := "kafka"; url := ""; endpoint := "";
     timeout := PyFloat.of_int 5; compression := None;
     config := {| auth := no_auth; custom_headers := None |} |}.

(** An http transport whose timeout is [float("inf")]. *)
Definition sample_http_inf : Transport :=
  {| kind := "http"; url := "http://localhost:5000";
     endpoint := "api/v1/lineage"; timeout := S754_infinity false;
     compression := None;
     config := {| auth := no_auth; custom_headers := None |} |}.

(** An http transport whose timeout is the float [1e306]. *)
Definition sample_http_huge : Transport :=
  {| kind := "http"; url := "http://localhost:5000";
     endpoint := "api/v1/lineage";
     timeout := S754_finite false 6413338752028713 964;
     compression := None;
     config := {| auth := no_auth; custom_headers := None |} |}.

(** Macros that answer namespace ["ns"], job name ["job"] and run id
    ["run-1"] for every task instance, task instances being named by
    strings; and a context that holds one. *)
Definition sample_job_name (ti : string) : string := "job".
Definition sample_run_id (ti : string) : string := "run-1".
Definition sample_context : gmap string string := {[ "ti" := "task_1" ]}.

(** ** Rounding toward zero *)

(** The integral part of a rational number: its floor when it is not
    negative, its ceiling when it is. *)
Definition Qtruncate (v : Q) : Z :=
  if Qle_bool (0 # 1) v then Qfloor v else Qceiling v.

(** ** Module initialisation *)

(** What the names exported by the module do when called: besides the
    events of the legacy implementations, the substitutes bound when a
    legacy import fails log a warning. *)
Inductive module_event (Object : Type) :=
| LogWarning (msg : string)
| LegacyEvent (ev : event Object).
Arguments LogWarning {Object} msg.
Arguments LegacyEvent {Object} ev.

(** The type of both exported functions. *)
Definition injector (Object : Type) : Type :=
  gmap string string -> gmap string Object ->
  list (module_event Object) * result (gmap string string).

Definition of_legacy {Object}
  (f : gmap string string -> gmap string Object ->
       M Object (gmap string string))
  : injector Object :=
  fun properties context =>
    (LegacyEvent <$> (f properties context).1, (f properties context).2).

Definition macros_missing_msg : string :=
  "Could not import `airflow.providers.openlineage.plugins.macros`.Skipping the injection of OpenLineage parent job information into Spark properties.".

Definition listener_missing_msg : string :=
  "Could not import `airflow.providers.openlineage.plugins.listener`.Skipping the injection of OpenLineage transport information into Spark properties.".

(** The substitute bound when the macros do not import. *)
Definition inject_parent_job_information_unavailable {Object}
  : injector Object :=
  fun properties context => ([LogWarning macros_missing_msg], Ok properties).

(** The substitute bound when the listener does not import. *)
Definition inject_transport_information_unavailable {Object}
  : injector Object :=
  fun properties context => ([LogWarning listener_missing_msg], Ok properties).

(** The three macros imported from
    [airflow.providers.openlineage.plugins.macros]. *)
Record Macros (Object : Type) := {
  macros_lineage_job_name : Object -> string;
  macros_lineage_job_namespace : string;
  macros_lineage_run_id : Object -> string;
}.
Arguments macros_lineage_job_name {Object} _.
Arguments macros_lineage_job_namespace {Object} _.
Arguments macros_lineage_run_id {Object} _.

(** What can be imported when the module is loaded; [None] stands for an
    [ImportError].  [utils_spark] is
    [airflow.providers.openlineage.utils.spark] with its two functions,
    [plugins_macros] the macros, and [plugins_listener] the listener
    module, given by the transport that its client resolves to. *)
Record Installed (Object : Type) := {
  utils_spark : option (injector Object * injector Object);
  plugins_macros : option (Macros Object);
  plugins_listener : option Transport;
}.
Arguments utils_spark {Object} _.
Arguments plugins_macros {Object} _.
Arguments plugins_listener {Object} _.

(** The two names in [__all__]. *)
Record Exports (Object : Type) := {
  exported_inject_parent : injector Object;
  exported_inject_transport : injector Object;
}.
Arguments exported_inject_parent {Object} _.
Arguments exported_inject_transport {Object} _.

(** Loading the module (outside type checking): the nested
    [try]/[except ImportError] blocks. *)
Definition load_module {Object} (installed : Installed Object)
  : Exports Object :=
  match utils_spark installed with
  | Some (inject_parent, inject_transport) =>
      {| exported_inject_parent := inject_parent;
         exported_inject_transport := inject_transport |}
  | None =>
      {| exported_inject_parent :=
           match plugins_macros installed with
           | None => inject_parent_job_information_unavailable
           | Some macros =>
               of_legacy
                 (inject_parent_job_information_into_spark_properties
                    (macros_lineage_job_namespace macros)
                    (macros_lineage_job_name macros)
                    (macros_lineage_run_id macros))
           end;
         exported_inject_transport :=
           match plugins_listener installed with
           | None => inject_transport_information_unavailable
           | Some transport =>
               of_legacy
                 (inject_transport_information_into_spark_properties
                    transport)
           end |}
  end.

(** ** Further sample inputs *)

(** An http transport whose timeout is the float nearest to [-0.0005];
    its product with 1000 is [-0.5]. *)
Definition sample_http_negative : Transport :=
  {| kind := "http"; url := "http://localhost:5000";
     endpoint := "api/v1/lineage";
     timeout := S754_finite true 4611686018427388 (-63);
     compression := None;
     config := {| auth := no_auth; custom_headers := None |} |}.

Definition sample_macros : Macros string :=
  {| macros_lineage_job_name := sample_job_name;
     macros_lineage_job_namespace := "ns";
     macros_lineage_run_id := sample_run_id |}.

(** Only the legacy modules are installed, with a Kafka transport. *)
Definition sample_installed_legacy : Installed string :=
  {| utils_spark := None;
     plugins_macros := Some sample_macros;
     plugins_listener := Some sample_kafka |}.

(** No OpenLineage provider module is installed. *)
Definition sample_installed_nothing : Installed string :=
  {| utils_spark := None; plugins_macros := None; plugins_listener := None |}.

(** * Properties *)

(** ** The prefix guard *)

Lemma startswith_app (pre s : string) : startswith (pre ++ s) pre = true.
Proof.
unfold startswith. induction pre as [|a pre IH]; simpl.
- by destruct s.
- destruct (ascii_dec a a); [exact IH | congruence].
Qed.

(** The guard is true exactly when some key of the dict has the prefix. *)
Lemma any_key_startswith_spec (pre : string) (m : gmap string string) :
any_key_startswith pre m = true <->
exists k, is_Some (m !! k) /\ startswith k pre = true.
Proof.
unfold any_key_startswith. rewrite existsb_exists. split.
- intros (k & Hin & Hk). exists k. split; [|done].
  apply list_elem_of_In, list_elem_of_fmap in Hin as ([k' v] & -> & Hin).
  apply elem_of_map_to_list in Hin. by exists v.
- intros (k & [v Hv] & Hk). exists k. split; [|done].
  apply list_elem_of_In, list_elem_of_fmap. exists (k, v).
  split; [done|]. by apply elem_of_map_to_list.
Qed.

Lemma any_key_startswith_lookup (pre k : string) (m : gmap string string) :
any_key_startswith pre m = false -> startswith k pre = true -> m !! k = None.
Proof.
intros Hno Hk. destruct (m !! k) as [v|] eqn:Hv; [|done].
assert (any_key_startswith pre m = true) as Hyes; [|congruence].
apply any_key_startswith_spec. exists k. by rewrite Hv.
Qed.

Lemma any_key_startswith_union_l (pre k : string) (a b : gmap string string) :
is_Some (a !! k) -> startswith k pre = true ->
any_key_startswith pre (a ∪ b) = true.
Proof.
intros [v Hv] Hk. apply any_key_startswith_spec. exists k. split; [|done].
exists v. by apply lookup_union_Some_l.
Qed.

(** ** Monad equations *)

Section MonadLaws.
Context {Object A B : Type}.

Lemma bind_ret (a : A) (k : A -> M Object B) : bind (ret a) k = k a.
Proof. unfold bind, ret. by destruct (k a). Qed.

Lemma bind_lift_ok (a : A) (k : A -> M Object B) : bind (lift (Ok a)) k = k a.
Proof. apply bind_ret. Qed.

Lemma bind_lift_raise (e : exn) (k : A -> M Object B) :
  bind (lift (Raise e)) k = ([], Raise e).
Proof. done. Qed.

Lemma bind_emit (ev : event Object) (k : unit -> M Object B) :
  bind (emit ev) k = (ev :: (k tt).1, (k tt).2).
Proof. unfold bind, emit. by destruct (k tt). Qed.
End MonadLaws.

(** ** Parent-job injection *)

Section ParentJob.
Context {Object : Type}.
Variable lineage_job_namespace : string.
Variable lineage_job_name : Object -> string.
Variable lineage_run_id : Object -> string.

Local Abbreviation inject_parent :=
  (inject_parent_job_information_into_spark_properties
     lineage_job_namespace lineage_job_name lineage_run_id).

Lemma inject_parent_guarded properties (context : gmap string Object) :
  any_key_startswith "spark.openlineage.parent" properties = true ->
  inject_parent properties context
  = ([LogInfo parent_skip_msg []], Ok properties).
Proof.
  intros Hguard.
  unfold inject_parent_job_information_into_spark_properties.
  by rewrite Hguard.
Qed.

Lemma inject_parent_fresh properties (context : gmap string Object) ti :
  any_key_startswith "spark.openlineage.parent" properties = false ->
  context !! "ti" = Some ti ->
  inject_parent properties context
  = ([CallLineageJobNamespace; CallLineageJobName ti; CallLineageRunId ti],
     Ok (<["spark.openlineage.parentRunId" := lineage_run_id ti]>
           (<["spark.openlineage.parentJobName" := lineage_job_name ti]>
              (<["spark.openlineage.parentJobNamespace" :=
                   lineage_job_namespace]> properties)))).
Proof.
  intros Hguard Hti.
  unfold inject_parent_job_information_into_spark_properties, getitem.
  rewrite Hguard, Hti. cbn -[insert union].
  unfold dict_merge, dict_display. cbn -[insert union].
  do 2 f_equal. 
  rewrite <- !insert_union_l. by rewrite (left_id_L ∅ (∪)).
Qed.

(** C4. When a key of the properties already starts with
    [spark.openlineage.parent], the call returns the properties
    unchanged, whatever the context holds; it only logs, and makes no
    call to the lineage macros (nor reads the context). *)
Theorem inject_parent_already_present properties (context : gmap string Object) :
  (exists k, is_Some (properties !! k)
             /\ startswith k "spark.openlineage.parent" = true) ->
  inject_parent properties context
  = ([LogInfo parent_skip_msg []], Ok properties)
  /\ existsb is_external_call (inject_parent properties context).1 = false.
Proof.
  intros Hkey. apply any_key_startswith_spec in Hkey.
  by rewrite inject_parent_guarded.
Qed.

Lemma inject_parent_no_ti properties (context : gmap string Object) :
  any_key_startswith "spark.openlineage.parent" properties = false ->
  context !! "ti" = None ->
  inject_parent properties context = ([], Raise (KeyError "ti")).
Proof.
  intros Hguard Hti.
  unfold inject_parent_job_information_into_spark_properties, getitem.
  by rewrite Hguard, Hti.
Qed.

(** C8. With no [spark.openlineage.parent] key in the properties and no
    ["ti"] entry in the context, the call raises [KeyError] for ["ti"];
    nothing is logged or looked up before, and no mapping is returned in
    its place. *)
Theorem inject_parent_missing_ti properties (context : gmap string Object) :
  any_key_startswith "spark.openlineage.parent" properties = false ->
  context !! "ti" = None ->
  inject_parent properties context = ([], Raise (KeyError "ti"))
  /\ ~ exists q, (inject_parent properties context).2 = Ok q.
Proof.
  intros Hguard Hti. rewrite inject_parent_no_ti by done.
  split; [done|]. by intros [q Hq].
Qed.

(** C2. With no [spark.openlineage.parent] key in the properties and a
    task instance under ["ti"] in the context, the call returns the
    properties overlaid with three keys: the parent job namespace (the
    no-argument macro), the parent job name and the parent run id (the
    macros applied to the task instance).  Every entry of the input is
    kept, exactly three keys are new, and on the empty mapping the result
    consists of those three entries. *)
Theorem inject_parent_overlay properties (context : gmap string Object) ti :
  any_key_startswith "spark.openlineage.parent" properties = false ->
  context !! "ti" = Some ti ->
  let q :=
    <["spark.openlineage.parentJobNamespace" := lineage_job_namespace]>
      (<["spark.openlineage.parentJobName" := lineage_job_name ti]>
         (<["spark.openlineage.parentRunId" := lineage_run_id ti]>
            properties)) in
  (inject_parent properties context).2 = Ok q
  /\ properties ⊆ q
  /\ size q = (3 + size properties)%nat
  /\ (properties = ∅ ->
      q = {[ "spark.openlineage.parentJobNamespace" := lineage_job_namespace;
             "spark.openlineage.parentJobName" := lineage_job_name ti;
             "spark.openlineage.parentRunId" := lineage_run_id ti ]}).
Proof.
  intros Hguard Hti q.
  assert (forall k, startswith k "spark.openlineage.parent" = true ->
                    properties !! k = None) as Hfree
    by (intros k; by apply any_key_startswith_lookup).
  pose proof (Hfree "spark.openlineage.parentJobNamespace" eq_refl) as H1.
  pose proof (Hfree "spark.openlineage.parentJobName" eq_refl) as H2.
  pose proof (Hfree "spark.openlineage.parentRunId" eq_refl) as H3.
  split; [|split; [|split]].
  - rewrite (inject_parent_fresh _ _ ti) by done. simpl. f_equal.
    subst q. apply map_eq. intros k.
    rewrite !lookup_insert. repeat case_decide; congruence.
  - subst q. repeat apply insert_subseteq_r; try done.
    all: by rewrite ?lookup_insert_ne.
  - subst q. rewrite !map_size_insert_None; [done|..].
    all: by rewrite ?lookup_insert_ne.
  - intros ->. subst q. by rewrite insert_empty.
Qed.

End ParentJob.

(** ** Float to integer conversion *)

Lemma binary_round_aux_sign prec emax s m e l s' m' e' :
  binary_round_aux prec emax s m e l = S754_finite s' m' e' -> s' = s.
Proof.
  unfold binary_round_aux.
  destruct (shr_fexp prec emax m e l) as [mrs1 e1].
  destruct (shr_fexp prec emax _ e1 loc_Exact) as [mrs2 e2].
  destruct (shr_m mrs2); [done| |done].
  destruct (e2 <=? emax - prec)%Z; [|done].
  by intros [= -> _ _].
Qed.

(** A finite product of two non-negative floats carries no minus sign. *)
Lemma mul_nonneg_sign x y s m e :
  PyFloat.nonneg x = true -> PyFloat.nonneg y = true ->
  PyFloat.mul x y = S754_finite s m e -> s = false.
Proof.
  unfold PyFloat.nonneg, PyFloat.mul, SFleb.
  destruct x as [sx|sx| |sx mx ex], y as [sy|sy| |sy my ey];
    simpl; try done.
  destruct sx, sy; try done.
  intros _ _ H. by apply binary_round_aux_sign in H.
Qed.

(** On a float without a minus sign, rounding toward zero is the floor. *)
Lemma to_int_floor_finite m e :
  PyFloat.floor (S754_finite false m e) = Some (Z.shiftl (Zpos m) e).
Proof.
  unfold PyFloat.floor, PyFloat.to_Q, Qfloor. simpl. f_equal.
  destruct e as [|p|p].
  - by rewrite Z.div_1_r.
  - rewrite Z.div_1_r. by rewrite Z.shiftl_mul_pow2.
  - change (Z.shiftl (Zpos m) (Zneg p)) with (Z.shiftr (Zpos m) (Zpos p)).
    rewrite Z.shiftr_div_pow2 by done. by rewrite Pos2Z.inj_pow.
Qed.

Lemma to_int_mul_floor x y z :
  PyFloat.nonneg x = true -> PyFloat.nonneg y = true ->
  PyFloat.to_int (PyFloat.mul x y) = Ok z ->
  PyFloat.floor (PyFloat.mul x y) = Some z.
Proof.
  intros Hx Hy. destruct (PyFloat.mul x y) as [s|s| |s m e] eqn:Hmul; try done.
  - by intros [= <-].
  - rewrite (mul_nonneg_sign _ _ _ _ _ Hx Hy Hmul). simpl.
    intros [= <-]. apply to_int_floor_finite.
Qed.

Lemma to_int_finite x :
  PyFloat.is_finite x = true -> exists z, PyFloat.to_int x = Ok z.
Proof. destruct x; simpl; try done; eauto. Qed.

Lemma to_int_not_finite x :
  PyFloat.is_finite x = false -> exists e, PyFloat.to_int x = Raise e.
Proof. destruct x; simpl; try done; eauto. Qed.

(** ** Transport injection *)

Lemma add_custom_headers_lookup_ne key headers (d : gmap string string) :
  startswith key "spark.openlineage.transport.headers." = false ->
  add_custom_headers headers d !! key = d !! key.
Proof.
  intros Hkey. revert d.
  induction headers as [|[k v] headers IH]; intros d; [done|].
  unfold add_custom_headers in *. cbn [foldl fst snd]. rewrite IH.
  apply lookup_insert_ne. intros <-. by rewrite startswith_app in Hkey.
Qed.

Lemma with_custom_headers_lookup_ne transport key (d : gmap string string) :
  startswith key "spark.openlineage.transport.headers." = false ->
  with_custom_headers transport d !! key = d !! key.
Proof.
  intros Hkey. unfold with_custom_headers.
  destruct (custom_headers (config transport)) as [[|h hs]|]; try done.
  by apply add_custom_headers_lookup_ne.
Qed.

Lemma with_compression_lookup_ne transport key (d : gmap string string) :
  key <> "spark.openlineage.transport.compression" ->
  with_compression transport d !! key = d !! key.
Proof.
  intros Hkey. unfold with_compression.
  destruct (compression transport) as [c|]; [|done].
  destruct (truthy (Some c)); [|done]. by rewrite lookup_insert_ne.
Qed.

Lemma with_auth_lookup_ne transport key (d : gmap string string) :
  key <> "spark.openlineage.transport.auth.type" ->
  key <> "spark.openlineage.transport.auth.apiKey" ->
  with_auth transport d !! key = d !! key.
Proof.
  intros Htype Hkey. unfold with_auth.
  destruct (has_api_key _ && truthy _); [|done].
  destruct (get_bearer _) as [bearer|]; [|done].
  by rewrite !lookup_insert_ne.
Qed.

Lemma with_auth_lookup_yes transport bearer (d : gmap string string) :
  has_api_key (auth (config transport)) = true ->
  get_bearer (auth (config transport)) = Some bearer ->
  bearer <> "" ->
  with_auth transport d !! "spark.openlineage.transport.auth.type"
  = Some "api_key"
  /\ with_auth transport d !! "spark.openlineage.transport.auth.apiKey"
     = Some bearer.
Proof.
  intros Hattr Hbearer Hne. unfold with_auth, truthy.
  rewrite Hattr, Hbearer. apply String.eqb_neq in Hne. rewrite Hne. simpl.
  split; [|by rewrite lookup_insert_eq].
  rewrite lookup_insert_ne by done. by rewrite lookup_insert_eq.
Qed.

Lemma with_auth_no transport (d : gmap string string) :
  has_api_key (auth (config transport)) = false
  \/ truthy (get_bearer (auth (config transport))) = false ->
  with_auth transport d = d.
Proof.
  unfold with_auth. intros [-> | ->]; [done|]. by rewrite andb_false_r.
Qed.

Lemma base_properties_lookup transport millis :
  base_properties transport millis !! "spark.openlineage.transport.type"
  = Some "http"
  /\ base_properties transport millis !! "spark.openlineage.transport.url"
     = Some (url transport)
  /\ base_properties transport millis
       !! "spark.openlineage.transport.endpoint"
     = Some (endpoint transport)
  /\ base_properties transport millis
       !! "spark.openlineage.transport.timeoutInMillis"
     = Some (str_of_int millis).
Proof.
  unfold base_properties, dict_display. cbn [foldl fst snd].
  repeat split; by simplify_map_eq.
Qed.

Lemma base_properties_no_auth transport millis :
  base_properties transport millis !! "spark.openlineage.transport.auth.type"
  = None
  /\ base_properties transport millis
       !! "spark.openlineage.transport.auth.apiKey" = None.
Proof.
  unfold base_properties, dict_display. cbn [foldl fst snd].
  split; by simplify_map_eq.
Qed.

(** Keys outside the compression, auth and header families are those of
    the base dict. *)
Lemma http_transport_properties_lookup_base transport millis key :
  startswith key "spark.openlineage.transport.headers." = false ->
  key <> "spark.openlineage.transport.compression" ->
  key <> "spark.openlineage.transport.auth.type" ->
  key <> "spark.openlineage.transport.auth.apiKey" ->
  http_transport_properties transport millis !! key
  = base_properties transport millis !! key.
Proof.
  intros Hh Hc Ht Ha. unfold http_transport_properties.
  rewrite with_custom_headers_lookup_ne by done.
  rewrite with_auth_lookup_ne by done.
  by rewrite with_compression_lookup_ne.
Qed.

Lemma http_transport_properties_no_auth transport millis :
  has_api_key (auth (config transport)) = false
  \/ truthy (get_bearer (auth (config transport))) = false ->
  http_transport_properties transport millis
    !! "spark.openlineage.transport.auth.type" = None
  /\ http_transport_properties transport millis
       !! "spark.openlineage.transport.auth.apiKey" = None.
Proof.
  intros Hno. unfold http_transport_properties.
  rewrite !with_custom_headers_lookup_ne by done.
  rewrite with_auth_no by done.
  rewrite !with_compression_lookup_ne by done.
  apply base_properties_no_auth.
Qed.

Lemma http_transport_properties_auth transport millis bearer :
  has_api_key (auth (config transport)) = true ->
  get_bearer (auth (config transport)) = Some bearer ->
  bearer <> "" ->
  http_transport_properties transport millis
    !! "spark.openlineage.transport.auth.type" = Some "api_key"
  /\ http_transport_properties transport millis
       !! "spark.openlineage.transport.auth.apiKey" = Some bearer.
Proof.
  intros Hattr Hbearer Hne. unfold http_transport_properties.
  rewrite !with_custom_headers_lookup_ne by done.
  by apply with_auth_lookup_yes.
Qed.

Section TransportInjection.
Context {Object : Type}.
Variable client_transport : Transport.

Local Abbreviation inject_transport :=
  (inject_transport_information_into_spark_properties
     (Object:=Object) client_transport).

Local Abbreviation millis_float :=
  (PyFloat.mul (timeout client_transport) (PyFloat.of_int 1000)).

Lemma bind_call_client_transport {B} (k : Transport -> M Object B) :
  bind (call_client_transport client_transport) k
  = (CallClientTransport :: (k client_transport).1, (k client_transport).2).
Proof.
  unfold call_client_transport, bind, emit, ret.
  by destruct (k client_transport).
Qed.

Lemma inject_transport_guarded properties (context : gmap string Object) :
  any_key_startswith "spark.openlineage.transport" properties = true ->
  inject_transport properties context
  = ([LogInfo transport_skip_msg []], Ok properties).
Proof.
  intros Hguard.
  unfold inject_transport_information_into_spark_properties.
  by rewrite Hguard.
Qed.

Lemma inject_transport_other_kind properties (context : gmap string Object) :
  any_key_startswith "spark.openlineage.transport" properties = false ->
  kind client_transport <> "http" ->
  inject_transport properties context
  = ([CallClientTransport;
      LogInfo transport_unsupported_msg [kind client_transport]], Ok ∅).
Proof.
  intros Hguard Hkind. apply String.eqb_neq in Hkind.
  unfold inject_transport_information_into_spark_properties.
  by rewrite Hguard, bind_call_client_transport, Hkind.
Qed.

Lemma inject_transport_http properties (context : gmap string Object) millis :
  any_key_startswith "spark.openlineage.transport" properties = false ->
  kind client_transport = "http" ->
  PyFloat.to_int millis_float = Ok millis ->
  inject_transport properties context
  = ([CallClientTransport],
     Ok (dict_merge properties
           (http_transport_properties client_transport millis))).
Proof.
  intros Hguard Hkind Hint.
  unfold inject_transport_information_into_spark_properties.
  by rewrite Hguard, bind_call_client_transport, Hkind, Hint, bind_lift_ok.
Qed.

Lemma inject_transport_http_raise properties (context : gmap string Object) e :
  any_key_startswith "spark.openlineage.transport" properties = false ->
  kind client_transport = "http" ->
  PyFloat.to_int millis_float = Raise e ->
  inject_transport properties context = ([CallClientTransport], Raise e).
Proof.
  intros Hguard Hkind Hint.
  unfold inject_transport_information_into_spark_properties.
  by rewrite Hguard, bind_call_client_transport, Hkind, Hint, bind_lift_raise.
Qed.

(** The three ways the call can end. *)
Lemma inject_transport_cases properties (context : gmap string Object) :
  inject_transport properties context
  = ([LogInfo transport_skip_msg []], Ok properties)
    /\ any_key_startswith "spark.openlineage.transport" properties = true
  \/ (inject_transport properties context).2 = Ok ∅
     /\ any_key_startswith "spark.openlineage.transport" properties = false
     /\ kind client_transport <> "http"
  \/ (exists millis,
        (inject_transport properties context).2
        = Ok (dict_merge properties
                (http_transport_properties client_transport millis)))
  \/ (exists e, (inject_transport properties context).2 = Raise e).
Proof.
  destruct (any_key_startswith "spark.openlineage.transport" properties)
    eqn:Hguard.
  { left. by rewrite inject_transport_guarded. }
  destruct (decide (kind client_transport = "http")) as [Hkind|Hkind].
  2: { right; left. by rewrite inject_transport_other_kind. }
  destruct (PyFloat.to_int millis_float) as [millis|e] eqn:Hint.
  - right; right; left. exists millis.
    by rewrite (inject_transport_http _ _ millis).
  - right; right; right. exists e.
    by rewrite (inject_transport_http_raise _ _ e).
Qed.

(** The call returns a mapping exactly when it is stopped by the guard,
    or the kind is not ["http"], or the float [timeout * 1000] is finite;
    otherwise the conversion to an integer raises. *)
Lemma inject_transport_returns_iff properties (context : gmap string Object) :
  (exists q, (inject_transport properties context).2 = Ok q) <->
  any_key_startswith "spark.openlineage.transport" properties = true
  \/ kind client_transport <> "http"
  \/ PyFloat.is_finite millis_float = true.
Proof.
  destruct (any_key_startswith "spark.openlineage.transport" properties)
    eqn:Hguard.
  { rewrite inject_transport_guarded by done. split; eauto. }
  destruct (decide (kind client_transport = "http")) as [Hkind|Hkind].
  2: { rewrite inject_transport_other_kind by done. split; eauto. }
  destruct (PyFloat.is_finite millis_float) eqn:Hfin.
  - destruct (to_int_finite _ Hfin) as [millis Hint].
    rewrite (inject_transport_http _ _ millis) by done. split; eauto.
  - destruct (to_int_not_finite _ Hfin) as [e Hint].
    rewrite (inject_transport_http_raise _ _ e) by done.
    split; [by intros [q Hq]|]. by intros [?|[?|?]].
Qed.

(** C1. With no [spark.openlineage.transport] key in the properties, a
    transport whose kind is not ["http"] makes the call return the empty
    mapping: every entry of the input is dropped.  The transport is
    resolved and one line is logged. *)
Theorem inject_transport_unsupported_kind
  properties (context : gmap string Object) :
  any_key_startswith "spark.openlineage.transport" properties = false ->
  kind client_transport <> "http" ->
  inject_transport properties context
  = ([CallClientTransport;
      LogInfo transport_unsupported_msg [kind client_transport]], Ok ∅)
  /\ forall q, (inject_transport properties context).2 = Ok q ->
               forall k, q !! k = None.
Proof.
  intros Hguard Hkind. rewrite inject_transport_other_kind by done.
  split; [done|]. by intros q [= <-] k.
Qed.

(** C5. When a key of the properties already starts with
    [spark.openlineage.transport], the call returns the properties
    unchanged, whatever the context; it only logs, and does not resolve
    the transport. *)
Theorem inject_transport_already_present
  properties (context : gmap string Object) :
  (exists k, is_Some (properties !! k)
             /\ startswith k "spark.openlineage.transport" = true) ->
  inject_transport properties context
  = ([LogInfo transport_skip_msg []], Ok properties)
  /\ existsb is_external_call (inject_transport properties context).1 = false.
Proof.
  intros Hkey. apply any_key_startswith_spec in Hkey.
  by rewrite inject_transport_guarded.
Qed.

(** C9. The context plays no part in the transport injection: with the
    same properties and the same transport, two contexts give the same
    trace and the same result. *)
Theorem inject_transport_context_irrelevant
  properties (context1 context2 : gmap string Object) :
  inject_transport_information_into_spark_properties
    client_transport properties context1
  = inject_transport_information_into_spark_properties
      client_transport properties context2.
Proof.
  unfold inject_transport_information_into_spark_properties.
  destruct (any_key_startswith "spark.openlineage.transport" properties);
    reflexivity.
Qed.

(** C3, amended. On the http path (no [spark.openlineage.transport] key in
    the properties, kind ["http"]), for a non-negative timeout whose float
    product with 1000 is finite, the call returns a mapping that holds the
    four base keys: type ["http"], the url, the endpoint, and
    [timeoutInMillis], the decimal string of the floor of the float
    [timeout * 1000]. *)
Theorem inject_transport_base_keys properties (context : gmap string Object) :
  any_key_startswith "spark.openlineage.transport" properties = false ->
  kind client_transport = "http" ->
  PyFloat.nonneg (timeout client_transport) = true ->
  PyFloat.is_finite millis_float = true ->
  exists q millis,
    (inject_transport properties context).2 = Ok q
    /\ PyFloat.floor millis_float = Some millis
    /\ q !! "spark.openlineage.transport.type" = Some "http"
    /\ q !! "spark.openlineage.transport.url" = Some (url client_transport)
    /\ q !! "spark.openlineage.transport.endpoint"
       = Some (endpoint client_transport)
    /\ q !! "spark.openlineage.transport.timeoutInMillis"
       = Some (str_of_int millis).
Proof.
  intros Hguard Hkind Hnonneg Hfin.
  destruct (to_int_finite _ Hfin) as [millis Hint].
  exists (dict_merge properties
            (http_transport_properties client_transport millis)), millis.
  split; [by rewrite (inject_transport_http _ _ millis)|].
  split; [by apply to_int_mul_floor|].
  destruct (base_properties_lookup client_transport millis)
    as (Htype & Hurl & Hendpoint & Htimeout).
  unfold dict_merge.
  repeat split; apply lookup_union_Some_l;
    by rewrite http_transport_properties_lookup_base.
Qed.

(** C7. On the http path, when the auth config has an [api_key] attribute
    and its bearer accessor yields a non-empty token, the mapping that the
    call returns also holds [auth.type] = ["api_key"] and [auth.apiKey] =
    the token; and the call does return a mapping as soon as the float
    [timeout * 1000] is finite. *)
Theorem inject_transport_auth_keys
  properties (context : gmap string Object) bearer :
  any_key_startswith "spark.openlineage.transport" properties = false ->
  kind client_transport = "http" ->
  has_api_key (auth (config client_transport)) = true ->
  get_bearer (auth (config client_transport)) = Some bearer ->
  bearer <> "" ->
  (forall q,
     (inject_transport properties context).2 = Ok q ->
     q !! "spark.openlineage.transport.auth.type" = Some "api_key"
     /\ q !! "spark.openlineage.transport.auth.apiKey" = Some bearer)
  /\ (PyFloat.is_finite millis_float = true ->
      exists q, (inject_transport properties context).2 = Ok q).
Proof.
  intros Hguard Hkind Hattr Hbearer Hne. split.
  - intros q Hq.
    destruct (PyFloat.to_int millis_float) as [millis|e] eqn:Hint.
    2: { by rewrite (inject_transport_http_raise _ _ e) in Hq. }
    rewrite (inject_transport_http _ _ millis) in Hq by done.
    injection Hq as <-.
    destruct (http_transport_properties_auth client_transport millis bearer)
      as [Htype Hkey]; try done.
    unfold dict_merge. split; by apply lookup_union_Some_l.
  - intros Hfin. destruct (to_int_finite _ Hfin) as [millis Hint].
    eexists. by rewrite (inject_transport_http _ _ millis).
Qed.

(** C10. The two auth keys appear in the output only through the auth
    rule.  For properties that hold neither key: if the output holds one
    of them, then the auth config has an [api_key] attribute and the
    bearer accessor yields a non-empty token; and if the attribute is
    missing or the token is empty or [None], the output holds neither. *)
Theorem inject_transport_auth_keys_only_if
  properties (context : gmap string Object) q :
  (inject_transport properties context).2 = Ok q ->
  properties !! "spark.openlineage.transport.auth.type" = None ->
  properties !! "spark.openlineage.transport.auth.apiKey" = None ->
  (is_Some (q !! "spark.openlineage.transport.auth.type")
   \/ is_Some (q !! "spark.openlineage.transport.auth.apiKey") ->
   has_api_key (auth (config client_transport)) = true
   /\ truthy (get_bearer (auth (config client_transport))) = true)
  /\ (has_api_key (auth (config client_transport)) = false
      \/ truthy (get_bearer (auth (config client_transport))) = false ->
      q !! "spark.openlineage.transport.auth.type" = None
      /\ q !! "spark.openlineage.transport.auth.apiKey" = None).
Proof.
  intros Hq Htype Hkey.
  assert (has_api_key (auth (config client_transport)) = false
          \/ truthy (get_bearer (auth (config client_transport))) = false ->
          q !! "spark.openlineage.transport.auth.type" = None
          /\ q !! "spark.openlineage.transport.auth.apiKey" = None) as Hno.
  { intros Hcond.
    destruct (inject_transport_cases properties context)
      as [[Heq _] | [[Heq _] | [[millis Heq] | [e Heq]]]].
    - rewrite Heq in Hq. by injection Hq as <-.
    - rewrite Heq in Hq. by injection Hq as <-.
    - rewrite Heq in Hq. injection Hq as <-. unfold dict_merge.
      destruct (http_transport_properties_no_auth client_transport millis
                  Hcond) as [Ht Hk].
      by rewrite !lookup_union_r.
    - congruence. }
  split; [|exact Hno].
  intros Hsome.
  destruct (has_api_key (auth (config client_transport))) eqn:Hattr,
    (truthy (get_bearer (auth (config client_transport)))) eqn:Htruthy;
    [done|..].
  all: destruct Hno as [Ht Hk]; [by auto|].
  all: rewrite Ht, Hk in Hsome; by destruct Hsome as [[? ?]|[? ?]].
Qed.

End TransportInjection.

(** ** Applying an injector twice *)

Section Idempotence.
Context {Object : Type}.
Variable lineage_job_namespace : string.
Variable lineage_job_name : Object -> string.
Variable lineage_run_id : Object -> string.
Variable client_transport : Transport.

Local Abbreviation inject_parent :=
  (inject_parent_job_information_into_spark_properties
     lineage_job_namespace lineage_job_name lineage_run_id).

Local Abbreviation inject_transport :=
  (inject_transport_information_into_spark_properties
     (Object:=Object) client_transport).

(** Whatever the parent injection returns carries a parent key. *)
Lemma inject_parent_output_guarded properties (context : gmap string Object) q :
  (inject_parent properties context).2 = Ok q ->
  any_key_startswith "spark.openlineage.parent" q = true.
Proof.
  destruct (any_key_startswith "spark.openlineage.parent" properties)
    eqn:Hguard.
  { rewrite inject_parent_guarded by done. by intros [= <-]. }
  destruct (context !! "ti") as [ti|] eqn:Hti.
  2: { by rewrite inject_parent_no_ti. }
  rewrite (inject_parent_fresh _ _ _ _ _ ti) by done. intros [= <-].
  apply any_key_startswith_spec.
  exists "spark.openlineage.parentRunId". split; [|done].
  by rewrite lookup_insert_eq.
Qed.

(** Whatever the transport injection returns carries a transport key,
    unless it is the empty mapping of the branch for other kinds. *)
Lemma inject_transport_output_guarded
  properties (context : gmap string Object) q :
  (inject_transport properties context).2 = Ok q ->
  any_key_startswith "spark.openlineage.transport" q = true
  \/ q = ∅ /\ kind client_transport <> "http".
Proof.
  intros Hq.
  destruct (inject_transport_cases client_transport properties context)
    as [[Heq Hguard] | [(Heq & _ & Hkind) | [[millis Heq] | [e Heq]]]];
    rewrite Heq in Hq; try done; injection Hq as <-; auto.
  left. apply (any_key_startswith_union_l _ "spark.openlineage.transport.type");
    [|done].
  rewrite http_transport_properties_lookup_base by done.
  by rewrite (proj1 (base_properties_lookup _ _)).
Qed.

(** C6, amended. Applying an injector to its own output returns that
    output unchanged.  For the parent injection the second call is stopped
    by the prefix guard, under any context; a first call under a context
    with ["ti"] does return.  For the transport injection the second call
    returns the output of the first for every transport.  It is stopped by
    the prefix guard after the guarded and the http branches; after the
    branch for kinds other than ["http"] the output is empty, the guard
    does not fire, and the second call resolves the transport and logs
    again before it returns the empty mapping again.  A first call
    returns whenever the guard stops it, the kind is not ["http"], or the
    float [timeout * 1000] is finite. *)
Theorem injectors_idempotent
  properties (context context' : gmap string Object) :
  (forall q, (inject_parent properties context).2 = Ok q ->
             inject_parent q context'
             = ([LogInfo parent_skip_msg []], Ok q))
  /\ (is_Some (context !! "ti") ->
      exists q, (inject_parent properties context).2 = Ok q)
  /\ (forall q, (inject_transport properties context).2 = Ok q ->
                (inject_transport q context').2 = Ok q
                /\ (any_key_startswith "spark.openlineage.transport" q = true
                    /\ inject_transport q context'
                       = ([LogInfo transport_skip_msg []], Ok q)
                    \/ any_key_startswith "spark.openlineage.transport" q
                       = false
                       /\ q = ∅
                       /\ kind client_transport <> "http"
                       /\ inject_transport q context'
                          = ([CallClientTransport;
                              LogInfo transport_unsupported_msg
                                [kind client_transport]], Ok ∅)))
  /\ (any_key_startswith "spark.openlineage.transport" properties = true
      \/ kind client_transport <> "http"
      \/ PyFloat.is_finite
           (PyFloat.mul (timeout client_transport) (PyFloat.of_int 1000))
         = true ->
      exists q, (inject_transport properties context).2 = Ok q).
Proof.
  split; [|split; [|split]].
  - intros q Hq. apply inject_parent_guarded.
    by apply (inject_parent_output_guarded properties context).
  - intros [ti Hti].
    destruct (any_key_startswith "spark.openlineage.parent" properties)
      eqn:Hguard.
    + exists properties. by rewrite inject_parent_guarded.
    + eexists. by rewrite (inject_parent_fresh _ _ _ _ _ ti).
  - intros q Hq.
    destruct (inject_transport_output_guarded properties context q Hq)
      as [Hguard | [-> Hkind]].
    + rewrite inject_transport_guarded by done. auto.
    + rewrite inject_transport_other_kind by done.
      split; [done|]. right. by repeat split.
  - apply inject_transport_returns_iff.
Qed.

End Idempotence.

(** ** The properties at concrete inputs *)

Local Abbreviation sample_inject_parent :=
  (inject_parent_job_information_into_spark_properties
     "ns" sample_job_name sample_run_id).

Local Abbreviation sample_inject_transport :=
  (inject_transport_information_into_spark_properties (Object:=string)).

Example inject_parent_empty :
  sample_inject_parent ∅ sample_context
  = ([CallLineageJobNamespace; CallLineageJobName "task_1";
      CallLineageRunId "task_1"],
     Ok {[ "spark.openlineage.parentJobNamespace" := "ns";
           "spark.openlineage.parentJobName" := "job";
           "spark.openlineage.parentRunId" := "run-1" ]}).
Proof. reflexivity. Qed.

Example inject_transport_http_default :
  sample_inject_transport sample_http ∅ sample_context
  = ([CallClientTransport],
     Ok {[ "spark.openlineage.transport.type" := "http";
           "spark.openlineage.transport.url" := "http://localhost:5000";
           "spark.openlineage.transport.endpoint" := "api/v1/lineage";
           "spark.openlineage.transport.timeoutInMillis" := "5000" ]}).
Proof. reflexivity. Qed.

Example inject_transport_kafka :
  (sample_inject_transport sample_kafka {[ "a" := "b" ]} sample_context).2
  = Ok ∅.
Proof. reflexivity. Qed.

Example inject_transport_http_full :
  (sample_inject_transport sample_http_full ∅ sample_context).2
  = Ok {[ "spark.openlineage.transport.type" := "http";
          "spark.openlineage.transport.url" := "http://localhost:5000";
          "spark.openlineage.transport.endpoint" := "api/v1/lineage";
          "spark.openlineage.transport.timeoutInMillis" := "5000";
          "spark.openlineage.transport.compression" := "gzip";
          "spark.openlineage.transport.auth.type" := "api_key";
          "spark.openlineage.transport.auth.apiKey" := "Bearer secret";
          "spark.openlineage.transport.headers.X-Foo" := "bar" ]}.
Proof. reflexivity. Qed.

(** A finite timeout can overflow too: [1e306 * 1000] is [inf]. *)
Example inject_transport_huge_timeout :
  PyFloat.is_finite (timeout sample_http_huge) = true
  /\ PyFloat.mul (timeout sample_http_huge) (PyFloat.of_int 1000)
     = S754_infinity false
  /\ sample_inject_transport sample_http_huge ∅ sample_context
     = ([CallClientTransport],
        Raise (OverflowError "cannot convert float infinity to integer")).
Proof. repeat split. Qed.

(** C3, as stated, fails: [float("inf")] is a non-negative timeout, and on
    the http path it makes the call raise [OverflowError] where the claim
    promises a mapping with the four base keys. *)
Lemma inject_transport_infinite_timeout_raises :
  any_key_startswith "spark.openlineage.transport" ∅ = false
  /\ kind sample_http_inf = "http"
  /\ PyFloat.nonneg (timeout sample_http_inf) = true
  /\ sample_inject_transport sample_http_inf ∅ sample_context
     = ([CallClientTransport],
        Raise (OverflowError "cannot convert float infinity to integer"))
  /\ ~ exists q,
         (sample_inject_transport sample_http_inf ∅ sample_context).2 = Ok q.
Proof. repeat split. by intros [q Hq]. Qed.

(** The millisecond count is the floor of the float product, which is
    rounded: for the float nearest to 0.29 the product is exactly 290.0,
    although the float itself lies just below 0.29. *)
Example float_product_is_rounded :
  let t := S754_finite false 5224175567749775 (-54) in
  PyFloat.floor (PyFloat.mul t (PyFloat.of_int 1000)) = Some 290
  /\ (Qfloor <$> (Qmult (1000 # 1) <$> PyFloat.to_Q t)) = Some 289.
Proof. split; reflexivity. Qed.

Lemma inject_transport_unsupported_kind_witness :
  any_key_startswith "spark.openlineage.transport" {[ "a" := "b" ]} = false
  /\ kind sample_kafka <> "http"
  /\ sample_inject_transport sample_kafka {[ "a" := "b" ]} sample_context
     = ([CallClientTransport; LogInfo transport_unsupported_msg ["kafka"]],
        Ok ∅).
Proof.
  split; [reflexivity|]. split; [discriminate|].
  apply (inject_transport_unsupported_kind sample_kafka {[ "a" := "b" ]}
           sample_context); [reflexivity | discriminate].
Defined.

Lemma inject_parent_overlay_witness :
  any_key_startswith "spark.openlineage.parent" {[ "a" := "b" ]} = false
  /\ sample_context !! "ti" = Some "task_1"
  /\ (sample_inject_parent {[ "a" := "b" ]} sample_context).2
     = Ok (<["spark.openlineage.parentJobNamespace" := "ns"]>
             (<["spark.openlineage.parentJobName" := "job"]>
                (<["spark.openlineage.parentRunId" := "run-1"]>
                   {[ "a" := "b" ]}))).
Proof.
  split; [reflexivity|]. split; [reflexivity|].
  apply (inject_parent_overlay "ns" sample_job_name sample_run_id
           {[ "a" := "b" ]} sample_context "task_1"); reflexivity.
Defined.

Lemma inject_transport_base_keys_witness :
  any_key_startswith "spark.openlineage.transport" ∅ = false
  /\ kind sample_http = "http"
  /\ PyFloat.nonneg (timeout sample_http) = true
  /\ PyFloat.is_finite (PyFloat.mul (timeout sample_http) (PyFloat.of_int 1000))
     = true
  /\ exists q millis,
       (sample_inject_transport sample_http ∅ sample_context).2 = Ok q
       /\ PyFloat.floor (PyFloat.mul (timeout sample_http) (PyFloat.of_int 1000))
          = Some millis
       /\ q !! "spark.openlineage.transport.type" = Some "http"
       /\ q !! "spark.openlineage.transport.url" = Some (url sample_http)
       /\ q !! "spark.openlineage.transport.endpoint"
          = Some (endpoint sample_http)
       /\ q !! "spark.openlineage.transport.timeoutInMillis"
          = Some (str_of_int millis).
Proof.
  do 4 (split; [reflexivity|]).
  apply (inject_transport_base_keys sample_http ∅ sample_context);
    reflexivity.
Defined.

Lemma inject_parent_already_present_witness :
  (exists k, is_Some (({[ "spark.openlineage.parentRunId" := "run-0" ]}
                        : gmap string string) !! k)
             /\ startswith k "spark.openlineage.parent" = true)
  /\ sample_inject_parent {[ "spark.openlineage.parentRunId" := "run-0" ]} ∅
     = ([LogInfo parent_skip_msg []],
        Ok {[ "spark.openlineage.parentRunId" := "run-0" ]}).
Proof.
  assert (exists k, is_Some (({[ "spark.openlineage.parentRunId" := "run-0" ]}
                               : gmap string string) !! k)
                    /\ startswith k "spark.openlineage.parent" = true) as Hkey.
  { exists "spark.openlineage.parentRunId". split; [|reflexivity].
    exists "run-0". reflexivity. }
  split; [exact Hkey|].
  apply (inject_parent_already_present "ns" sample_job_name sample_run_id
           {[ "spark.openlineage.parentRunId" := "run-0" ]} ∅ Hkey).
Defined.

Lemma inject_transport_already_present_witness :
  (exists k, is_Some (({[ "spark.openlineage.transport.type" := "console" ]}
                        : gmap string string) !! k)
             /\ startswith k "spark.openlineage.transport" = true)
  /\ sample_inject_transport sample_http
       {[ "spark.openlineage.transport.type" := "console" ]} sample_context
     = ([LogInfo transport_skip_msg []],
        Ok {[ "spark.openlineage.transport.type" := "console" ]}).
Proof.
  assert (exists k, is_Some (({[ "spark.openlineage.transport.type" := "console" ]}
                               : gmap string string) !! k)
                    /\ startswith k "spark.openlineage.transport" = true)
    as Hkey.
  { exists "spark.openlineage.transport.type". split; [|reflexivity].
    exists "console". reflexivity. }
  split; [exact Hkey|].
  apply (inject_transport_already_present sample_http
           {[ "spark.openlineage.transport.type" := "console" ]}
           sample_context Hkey).
Defined.

Lemma inject_transport_auth_keys_witness :
  let q : gmap string string :=
    {[ "spark.openlineage.transport.type" := "http";
       "spark.openlineage.transport.url" := "http://localhost:5000";
       "spark.openlineage.transport.endpoint" := "api/v1/lineage";
       "spark.openlineage.transport.timeoutInMillis" := "5000";
       "spark.openlineage.transport.compression" := "gzip";
       "spark.openlineage.transport.auth.type" := "api_key";
       "spark.openlineage.transport.auth.apiKey" := "Bearer secret";
       "spark.openlineage.transport.headers.X-Foo" := "bar";
       "a" := "b" ]} in
  any_key_startswith "spark.openlineage.transport" {[ "a" := "b" ]} = false
  /\ kind sample_http_full = "http"
  /\ has_api_key (auth (config sample_http_full)) = true
  /\ get_bearer (auth (config sample_http_full)) = Some "Bearer secret"
  /\ "Bearer secret" <> ""
  /\ (sample_inject_transport sample_http_full {[ "a" := "b" ]}
        sample_context).2 = Ok q
  /\ q !! "spark.openlineage.transport.auth.type" = Some "api_key"
  /\ q !! "spark.openlineage.transport.auth.apiKey" = Some "Bearer secret".
Proof.
  intros q. do 4 (split; [reflexivity|]). split; [discriminate|].
  split; [reflexivity|].
  apply (inject_transport_auth_keys sample_http_full {[ "a" := "b" ]}
           sample_context "Bearer secret");
    try reflexivity; discriminate.
Defined.

Lemma inject_parent_missing_ti_witness :
  any_key_startswith "spark.openlineage.parent" {[ "a" := "b" ]} = false
  /\ (∅ : gmap string string) !! "ti" = None
  /\ sample_inject_parent {[ "a" := "b" ]} ∅ = ([], Raise (KeyError "ti")).
Proof.
  split; [reflexivity|]. split; [reflexivity|].
  apply (inject_parent_missing_ti "ns" sample_job_name sample_run_id
           {[ "a" := "b" ]} ∅); reflexivity.
Defined.

Lemma inject_transport_auth_keys_only_if_witness :
  let q : gmap string string :=
    {[ "spark.openlineage.transport.type" := "http";
       "spark.openlineage.transport.url" := "http://localhost:5000";
       "spark.openlineage.transport.endpoint" := "api/v1/lineage";
       "spark.openlineage.transport.timeoutInMillis" := "5000";
       "a" := "b" ]} in
  (sample_inject_transport sample_http {[ "a" := "b" ]} sample_context).2
  = Ok q
  /\ ({[ "a" := "b" ]} : gmap string string)
       !! "spark.openlineage.transport.auth.type" = None
  /\ ({[ "a" := "b" ]} : gmap string string)
       !! "spark.openlineage.transport.auth.apiKey" = None
  /\ q !! "spark.openlineage.transport.auth.type" = None
  /\ q !! "spark.openlineage.transport.auth.apiKey" = None.
Proof.
  intros q. do 3 (split; [reflexivity|]).
  apply (inject_transport_auth_keys_only_if sample_http {[ "a" := "b" ]}
           sample_context q); try reflexivity.
  left. reflexivity.
Defined.

Lemma injectors_idempotent_witness :
  sample_context !! "ti" = Some "task_1"
  /\ (exists q,
        (sample_inject_parent {[ "a" := "b" ]} sample_context).2 = Ok q
        /\ sample_inject_parent q ∅ = ([LogInfo parent_skip_msg []], Ok q))
  /\ (exists q,
        (sample_inject_transport sample_http_full {[ "a" := "b" ]}
           sample_context).2 = Ok q
        /\ (sample_inject_transport sample_http_full q ∅).2 = Ok q)
  /\ (sample_inject_transport sample_kafka {[ "a" := "b" ]} sample_context).2
     = Ok ∅
  /\ (sample_inject_transport sample_kafka ∅ ∅).2 = Ok ∅.
Proof.
  destruct (injectors_idempotent "ns" sample_job_name sample_run_id
              sample_kafka {[ "a" := "b" ]} sample_context ∅)
    as (Hparent & Hreturns & Hkafka & _).
  destruct (injectors_idempotent "ns" sample_job_name sample_run_id
              sample_http_full {[ "a" := "b" ]} sample_context ∅)
    as (_ & _ & Hhttp & Hhttp_returns).
  split; [reflexivity|]. split; [|split; [|split]].
  - destruct Hreturns as [q Hq]; [by exists "task_1"|].
    exists q. split; [exact Hq|]. exact (Hparent q Hq).
  - destruct Hhttp_returns as [q Hq]; [right; right; reflexivity|].
    exists q. split; [exact Hq|]. exact (proj1 (Hhttp q Hq)).
  - reflexivity.
  - exact (proj1 (Hkafka ∅ eq_refl)).
Defined.

(** C6, as stated, fails in the branch for kinds other than ["http"]: with
    a Kafka transport the first call on [{"a": "b"}] returns the empty
    mapping, which holds no transport key, so the guard does not stop the
    second call: it resolves the transport and logs the unsupported kind
    again.  Only the returned value is the same. *)
Lemma second_transport_call_not_guarded :
  (sample_inject_transport sample_kafka {[ "a" := "b" ]} sample_context).2
  = Ok ∅
  /\ any_key_startswith "spark.openlineage.transport" ∅ = false
  /\ sample_inject_transport sample_kafka ∅ sample_context
     = ([CallClientTransport; LogInfo transport_unsupported_msg ["kafka"]],
        Ok ∅)
  /\ sample_inject_transport sample_kafka ∅ sample_context
     <> ([LogInfo transport_skip_msg []], Ok ∅)
  /\ existsb is_external_call
       (sample_inject_transport sample_kafka ∅ sample_context).1 = true.
Proof. repeat split. discriminate. Qed.

(** * Further properties of the legacy path *)

(** ** Strings and the guard under updates *)

Lemma startswith_inv (k pre : string) :
  startswith k pre = true -> exists s, k = pre ++ s.
Proof.
  unfold startswith. revert k.
  induction pre as [|a pre IH]; intros k.
  - by exists k.
  - destruct k as [|b k]; simpl; [done|].
    destruct (ascii_dec a b) as [->|]; [|done].
    intros [s ->]%IH. by exists s.
Qed.

Lemma append_inj (pre a b : string) : pre ++ a = pre ++ b -> a = b.
Proof.
  induction pre as [|c pre IH]; simpl; [done|]. intros H.
  injection H as H. auto.
Qed.

(** No key can carry both guard prefixes, and the transport keys all lie
    under the longer prefix [spark.openlineage.transport.]. *)
Lemma transport_key_not_parent (k : string) :
  startswith k "spark.openlineage.transport" = true ->
  startswith k "spark.openlineage.parent" = false.
Proof. by intros [s ->]%startswith_inv. Qed.

Lemma transport_dot_key (k : string) :
  startswith k "spark.openlineage.transport." = true ->
  startswith k "spark.openlineage.transport" = true.
Proof. by intros [s ->]%startswith_inv. Qed.

Lemma any_key_startswith_insert_ne (pre k v : string)
  (m : gmap string string) :
  startswith k pre = false ->
  any_key_startswith pre (<[k := v]> m) = any_key_startswith pre m.
Proof.
  intros Hk. apply eq_true_iff_eq. rewrite !any_key_startswith_spec.
  split; intros (k' & [v' Hv'] & Hk'); exists k'; (split; [|done]).
  - rewrite lookup_insert_ne in Hv' by congruence. by exists v'.
  - exists v'. rewrite lookup_insert_ne by congruence. done.
Qed.

Lemma any_key_startswith_union_ne (pre : string) (a b : gmap string string) :
  (forall k, is_Some (a !! k) -> startswith k pre = false) ->
  any_key_startswith pre (a ∪ b) = any_key_startswith pre b.
Proof.
  intros Ha. apply eq_true_iff_eq. rewrite !any_key_startswith_spec.
  split; intros (k & Hsome & Hk); exists k; (split; [|done]).
  - apply lookup_union_is_Some in Hsome as [Hsome|Hsome]; [|done].
    apply Ha in Hsome. congruence.
  - apply lookup_union_is_Some. by right.
Qed.

(** ** What the http branch adds *)

Lemma add_custom_headers_lookup_Some key v headers (d : gmap string string) :
  add_custom_headers headers d !! key = Some v ->
  d !! key = Some v
  \/ startswith key "spark.openlineage.transport.headers." = true.
Proof.
  revert d. induction headers as [|[k w] headers IH]; intros d; [by left|].
  unfold add_custom_headers in *. cbn [foldl fst snd]. intros H.
  apply IH in H as [H|H]; [|by right].
  apply lookup_insert_Some in H as [[<- _]|[_ H]]; [|by left].
  right. apply startswith_app.
Qed.

(** Every key assembled on the http branch lies under
    [spark.openlineage.transport.]. *)
Lemma http_transport_properties_keys transport millis key :
  is_Some (http_transport_properties transport millis !! key) ->
  startswith key "spark.openlineage.transport." = true.
Proof.
  intros [v H]. unfold http_transport_properties, with_custom_headers in H.
  assert (with_auth transport
            (with_compression transport (base_properties transport millis))
            !! key = Some v -> startswith key "spark.openlineage.transport." = true)
    as Hrest.
  { clear H. unfold with_auth, with_compression, base_properties,
      dict_display.
    cbn [foldl fst snd]. intros H.
    repeat match type of H with
      | (if ?c then _ else _) !! _ = _ => destruct c
      | (match ?c with _ => _ end) !! _ = _ => destruct c
      | <[_:=_]> _ !! _ = Some _ =>
          apply lookup_insert_Some in H as [[<- _]|[_ H]]; [done|]
      end; done. }
  destruct (custom_headers (config transport)) as [[|h hs]|]; auto.
  apply add_custom_headers_lookup_Some in H as [H|H]; [auto|].
  by apply startswith_inv in H as [s ->].
Qed.

Lemma http_transport_properties_disjoint transport millis
  (properties : gmap string string) :
  any_key_startswith "spark.openlineage.transport" properties = false ->
  http_transport_properties transport millis ##ₘ properties.
Proof.
  intros Hguard. apply map_disjoint_spec. intros k v w Hv Hw.
  assert (properties !! k = None) as Hnone; [|congruence].
  apply (any_key_startswith_lookup "spark.openlineage.transport"); [done|].
  apply transport_dot_key, (http_transport_properties_keys transport millis).
  by exists v.
Qed.

Lemma add_custom_headers_lookup_items k v headers (d : gmap string string) :
  NoDup headers.*1 ->
  add_custom_headers headers d
    !! ("spark.openlineage.transport.headers." ++ k) = Some v <->
  (k, v) ∈ headers
  \/ (k ∉ headers.*1)
     /\ d !! ("spark.openlineage.transport.headers." ++ k) = Some v.
Proof.
  revert d. induction headers as [|[k1 v1] headers IH]; intros d Hnodup.
  { cbn. split; [intros H; right; split; [apply not_elem_of_nil|done]|].
    intros [H|[_ H]]; [by apply elem_of_nil in H|done]. }
  apply NoDup_cons in Hnodup as [Hk1 Hnodup].
  unfold add_custom_headers in *. cbn [foldl fst snd]. rewrite IH by done.
  cbn [fmap list_fmap fst]. rewrite elem_of_cons, not_elem_of_cons.
  destruct (decide (k = k1)) as [->|Hne].
  - rewrite lookup_insert_eq. split.
    + intros [Hin | [_ [= ->]]]; [|by left; left].
      exfalso. apply Hk1. apply list_elem_of_fmap. by exists (k1, v).
    + intros [[[= ->] | Hin] | [[? _] _]]; [|by left|done].
      right. done.
  - rewrite lookup_insert_ne by (intros ?%append_inj; congruence).
    split.
    + intros [Hin | [Hnin Hd]]; [by left; right|]. right. done.
    + intros [[[= -> _] | Hin] | [[_ Hnin] Hd]]; [done|by left|by right].
Qed.

Section TransportDetails.
Context {Object : Type}.
Variable client_transport : Transport.

Local Abbreviation inject_transport :=
  (inject_transport_information_into_spark_properties
     (Object:=Object) client_transport).

Local Abbreviation millis_float :=
  (PyFloat.mul (timeout client_transport) (PyFloat.of_int 1000)).

(** What a returning call on the http branch has computed. *)
Lemma inject_transport_http_inv properties (context : gmap string Object) q :
  any_key_startswith "spark.openlineage.transport" properties = false ->
  kind client_transport = "http" ->
  (inject_transport properties context).2 = Ok q ->
  exists millis,
    PyFloat.to_int millis_float = Ok millis
    /\ q = http_transport_properties client_transport millis ∪ properties.
Proof.
  intros Hguard Hkind Hq.
  destruct (PyFloat.to_int millis_float) as [millis|e] eqn:Hint.
  - rewrite (inject_transport_http _ _ _ millis) in Hq by done.
    injection Hq as <-. by exists millis.
  - by rewrite (inject_transport_http_raise _ _ _ e) in Hq.
Qed.

(** X1. The compression rule of the http branch: the output holds
    [spark.openlineage.transport.compression] exactly when the transport's
    compression is a non-empty string, and then with that string; [None]
    and the empty string leave the key out. *)
Theorem inject_transport_compression
  properties (context : gmap string Object) q :
  any_key_startswith "spark.openlineage.transport" properties = false ->
  kind client_transport = "http" ->
  (inject_transport_information_into_spark_properties
     client_transport properties context).2 = Ok q ->
  q !! "spark.openlineage.transport.compression"
  = (if truthy (compression client_transport)
     then compression client_transport else None).
Proof.
  intros Hguard Hkind Hq.
  destruct (inject_transport_http_inv _ _ _ Hguard Hkind Hq)
    as (millis & _ & ->).
  rewrite lookup_union_l
    by (by apply (any_key_startswith_lookup "spark.openlineage.transport")).
  unfold http_transport_properties.
  rewrite with_custom_headers_lookup_ne, with_auth_lookup_ne by done.
  unfold with_compression.
  destruct (compression client_transport) as [c|]; simpl.
  - destruct (negb (c =? "")%string).
    + by rewrite lookup_insert_eq.
    + unfold base_properties, dict_display. cbn [foldl fst snd].
      by simplify_map_eq.
  - unfold base_properties, dict_display. cbn [foldl fst snd].
    by simplify_map_eq.
Qed.

(** X2. The custom headers of the http branch: with the items of
    [custom_headers] (none when the attribute is missing), whose keys are
    distinct as those of a dict are, the output holds
    [spark.openlineage.transport.headers.<k>] = [v] exactly for the items
    [(k, v)]. *)
Theorem inject_transport_custom_headers
  properties (context : gmap string Object) q k v :
  any_key_startswith "spark.openlineage.transport" properties = false ->
  kind client_transport = "http" ->
  NoDup (default [] (custom_headers (config client_transport))).*1 ->
  (inject_transport_information_into_spark_properties
     client_transport properties context).2 = Ok q ->
  q !! ("spark.openlineage.transport.headers." ++ k) = Some v <->
  (k, v) ∈ default [] (custom_headers (config client_transport)).
Proof.
  intros Hguard Hkind Hnodup Hq.
  destruct (inject_transport_http_inv _ _ _ Hguard Hkind Hq)
    as (millis & _ & ->).
  rewrite lookup_union_l
    by (by apply (any_key_startswith_lookup "spark.openlineage.transport")).
  unfold http_transport_properties.
  assert (with_auth client_transport
            (with_compression client_transport
               (base_properties client_transport millis))
            !! ("spark.openlineage.transport.headers." ++ k) = None) as Hnone.
  { rewrite with_auth_lookup_ne, with_compression_lookup_ne by done.
    unfold base_properties, dict_display. cbn [foldl fst snd].
    by rewrite !lookup_insert_ne, lookup_empty. }
  unfold with_custom_headers.
  destruct (custom_headers (config client_transport)) as [[|h hs]|];
    cbn [default] in *.
  - rewrite Hnone. split; [done|]. by intros ?%elem_of_nil.
  - rewrite add_custom_headers_lookup_items by done. rewrite Hnone.
    split; [by intros [?|[_ ?]]|by left].
  - rewrite Hnone. split; [done|]. by intros ?%elem_of_nil.
Qed.

(** X3. Outside the branch for other kinds, the transport injection keeps
    every entry of its input, and whatever it adds lies under
    [spark.openlineage.transport.]. *)
Theorem inject_transport_preserves_input
  properties (context : gmap string Object) q :
  any_key_startswith "spark.openlineage.transport" properties = true
  \/ kind client_transport = "http" ->
  (inject_transport_information_into_spark_properties
     client_transport properties context).2 = Ok q ->
  properties ⊆ q
  /\ forall k, is_Some (q !! k) ->
               is_Some (properties !! k)
               \/ startswith k "spark.openlineage.transport." = true.
Proof.
  intros Hbranch Hq.
  destruct (any_key_startswith "spark.openlineage.transport" properties)
    eqn:Hguard.
  { rewrite inject_transport_guarded in Hq by done. injection Hq as <-.
    split; [done|auto]. }
  destruct Hbranch as [?|Hkind]; [done|].
  destruct (inject_transport_http_inv _ _ _ Hguard Hkind Hq)
    as (millis & _ & ->).
  split.
  - apply map_union_subseteq_r. by apply http_transport_properties_disjoint.
  - intros k [Hk|Hk]%lookup_union_is_Some; [|by left].
    right. by apply (http_transport_properties_keys client_transport millis).
Qed.

End TransportDetails.

(** ** The timeout conversion *)

Lemma float_magnitude_floor m e :
  exists n d,
    PyFloat.to_Q (S754_finite false m e) = Some (n # d)%Q
    /\ PyFloat.to_Q (S754_finite true m e) = Some (- n # d)%Q
    /\ (0 < n)%Z
    /\ (n / Zpos d)%Z = Z.shiftl (Zpos m) e.
Proof.
  pose proof (to_int_floor_finite m e) as Hfloor.
  unfold PyFloat.floor, PyFloat.to_Q in *.
  destruct e as [|p|p]; cbn [Qopp Qnum Qden] in *; eexists _, _;
    (split; [reflexivity|]); (split; [reflexivity|]);
    (split; [|by injection Hfloor]).
  - done.
  - apply Z.mul_pos_pos; [done|]. by apply Z.pow_pos_nonneg.
  - done.
Qed.

(** [int(x)] is the value of [x] rounded toward zero. *)
Lemma to_int_truncates x v :
  PyFloat.to_Q x = Some v -> PyFloat.to_int x = Ok (Qtruncate v).
Proof.
  destruct x as [s|s| |s m e]; try done.
  { by intros [= <-]. }
  destruct (float_magnitude_floor m e) as (n & d & Hpos & Hneg & Hn & Hdiv).
  destruct s; intros Hv.
  - rewrite Hneg in Hv. injection Hv as <-.
    unfold PyFloat.to_int, Qtruncate, Qle_bool, Qceiling, Qfloor.
    cbn [Qopp Qnum Qden cond_Zopp]. rewrite Z.opp_involutive, Hdiv.
    destruct (Z.leb_spec (0 * Z.pos d) (- n * 1)); [lia|done].
  - rewrite Hpos in Hv. injection Hv as <-.
    unfold PyFloat.to_int, Qtruncate, Qle_bool, Qfloor.
    cbn [Qnum Qden cond_Zopp]. rewrite Hdiv.
    destruct (Z.leb_spec (0 * Z.pos d) (n * 1)); [done|lia].
Qed.

Section TransportTimeout.
Context {Object : Type}.
Variable client_transport : Transport.

Local Abbreviation millis_float :=
  (PyFloat.mul (timeout client_transport) (PyFloat.of_int 1000)).

(** X5. The millisecond count is the float [timeout * 1000] rounded toward
    zero, whatever its sign: on the http branch, when that float is finite
    with value [v], the call returns a mapping whose [timeoutInMillis] is
    the decimal string of the floor of [v] for [v >= 0] and of its ceiling
    for [v < 0]. *)
Theorem inject_transport_timeout_truncates
  properties (context : gmap string Object) v :
  any_key_startswith "spark.openlineage.transport" properties = false ->
  kind client_transport = "http" ->
  PyFloat.to_Q millis_float = Some v ->
  exists q,
    (inject_transport_information_into_spark_properties
       client_transport properties context).2 = Ok q
    /\ q !! "spark.openlineage.transport.timeoutInMillis"
       = Some (str_of_int (Qtruncate v)).
Proof.
  intros Hguard Hkind Hv. apply to_int_truncates in Hv.
  eexists. rewrite (inject_transport_http _ _ _ (Qtruncate v)) by done.
  split; [done|]. apply lookup_union_Some_l.
  rewrite http_transport_properties_lookup_base by done.
  apply base_properties_lookup.
Qed.

(** X6. When the transport injection raises: exactly when the guard does
    not fire, the kind is ["http"] and the float [timeout * 1000] is an
    infinity ([OverflowError]) or NaN ([ValueError]), in both directions.
    A call that raises has resolved the transport and logged nothing. *)
Theorem inject_transport_raises_iff
  properties (context : gmap string Object) e :
  ((inject_transport_information_into_spark_properties
      client_transport properties context).2 = Raise e <->
   any_key_startswith "spark.openlineage.transport" properties = false
   /\ kind client_transport = "http"
   /\ ((exists s, millis_float = S754_infinity s)
       /\ e = OverflowError "cannot convert float infinity to integer"
       \/ millis_float = S754_nan
          /\ e = ValueError "cannot convert float NaN to integer"))
  /\ ((inject_transport_information_into_spark_properties
         client_transport properties context).2 = Raise e ->
      inject_transport_information_into_spark_properties
        client_transport properties context
      = ([CallClientTransport], Raise e)).
Proof.
  destruct (any_key_startswith "spark.openlineage.transport" properties)
    eqn:Hguard.
  { rewrite inject_transport_guarded by done.
    split; [split|]; [done|by intros [? _]|done]. }
  destruct (decide (kind client_transport = "http")) as [Hkind|Hkind].
  2: { rewrite inject_transport_other_kind by done.
       split; [split|]; [done|by intros (_ & ? & _)|done]. }
  destruct (PyFloat.to_int millis_float) as [millis|e'] eqn:Hint.
  - rewrite (inject_transport_http _ _ _ millis) by done.
    split; [split|]; [done| |done].
    intros (_ & _ & [[[s Hs] _] | [Hs _]]); rewrite Hs in Hint; done.
  - rewrite (inject_transport_http_raise _ _ _ e') by done.
    split; [split|].
    + intros [= ->]. do 2 (split; [done|]).
      destruct millis_float as [s|s| |s m ex]; try done.
      * left. split; [by exists s|]. by injection Hint.
      * right. split; [done|]. by injection Hint.
    + intros (_ & _ & [[[s Hs] ->] | [Hs ->]]);
        rewrite Hs in Hint; simpl in Hint; by injection Hint as <-.
    + by intros [= ->].
Qed.

End TransportTimeout.

(** ** The two injectors in sequence *)

Lemma bind_result {Object A B} (c : M Object A) (k : A -> M Object B) :
  (bind c k).2 = match c.2 with
                 | Ok a => (k a).2
                 | Raise e => Raise e
                 end.
Proof. destruct c as [tr [a|e]]; [|done]. simpl. by destruct (k a). Qed.

Section Sequence.
Context {Object : Type}.
Variable lineage_job_namespace : string.
Variable lineage_job_name : Object -> string.
Variable lineage_run_id : Object -> string.
Variable client_transport : Transport.

Local Abbreviation inject_parent :=
  (inject_parent_job_information_into_spark_properties
     lineage_job_namespace lineage_job_name lineage_run_id).

Local Abbreviation inject_transport :=
  (inject_transport_information_into_spark_properties
     (Object:=Object) client_transport).

Local Abbreviation with_parent_keys ti properties :=
  (<["spark.openlineage.parentRunId" := lineage_run_id ti]>
     (<["spark.openlineage.parentJobName" := lineage_job_name ti]>
        (<["spark.openlineage.parentJobNamespace" := lineage_job_namespace]>
           properties))).

(** The parent keys do not touch the transport guard. *)
Lemma transport_guard_with_parent_keys ti (properties : gmap string string) :
  any_key_startswith "spark.openlineage.transport"
    (with_parent_keys ti properties)
  = any_key_startswith "spark.openlineage.transport" properties.
Proof. by rewrite !any_key_startswith_insert_ne. Qed.

(** The transport keys do not touch the parent guard. *)
Lemma parent_guard_with_transport_keys millis
  (properties : gmap string string) :
  any_key_startswith "spark.openlineage.parent"
    (http_transport_properties client_transport millis ∪ properties)
  = any_key_startswith "spark.openlineage.parent" properties.
Proof.
  apply any_key_startswith_union_ne. intros k Hk.
  by apply transport_key_not_parent, transport_dot_key,
    (http_transport_properties_keys client_transport millis).
Qed.

Lemma with_parent_keys_union ti millis (properties : gmap string string) :
  with_parent_keys ti
    (http_transport_properties client_transport millis ∪ properties)
  = http_transport_properties client_transport millis
    ∪ with_parent_keys ti properties.
Proof.
  assert (forall k, startswith k "spark.openlineage.transport." = false ->
            http_transport_properties client_transport millis !! k = None)
    as Hfree.
  { intros k Hk.
    destruct (http_transport_properties client_transport millis !! k)
      eqn:Hsome; [|done].
    rewrite (http_transport_properties_keys client_transport millis k) in Hk;
      [done|by eexists]. }
  by rewrite !insert_union_r by (by apply Hfree).
Qed.

(** X7. Away from the branch for other kinds the two injections commute: when
    the properties already carry a transport key, or the transport is of
    kind ["http"] with a finite float [timeout * 1000], injecting the
    parent job and then the transport ends as injecting the transport and
    then the parent job does, with the same mapping or with the same
    [KeyError] for a context without ["ti"]. *)
Theorem injectors_commute properties (context : gmap string Object) :
  any_key_startswith "spark.openlineage.transport" properties = true
  \/ kind client_transport = "http"
     /\ PyFloat.is_finite
          (PyFloat.mul (timeout client_transport) (PyFloat.of_int 1000))
        = true ->
  (bind (inject_parent_job_information_into_spark_properties
           lineage_job_namespace lineage_job_name lineage_run_id
           properties context)
     (fun q => inject_transport_information_into_spark_properties
                 client_transport q context)).2
  = (bind (inject_transport_information_into_spark_properties
             client_transport properties context)
       (fun q => inject_parent_job_information_into_spark_properties
                   lineage_job_namespace lineage_job_name lineage_run_id
                   q context)).2.
Proof.
  intros Hbranch. rewrite !bind_result.
  assert (exists qT,
            (inject_transport properties context).2 = Ok qT
            /\ any_key_startswith "spark.openlineage.parent" qT
               = any_key_startswith "spark.openlineage.parent" properties
            /\ (forall ti,
                  any_key_startswith "spark.openlineage.parent" properties
                  = false ->
                  (inject_transport (with_parent_keys ti properties)
                     context).2
                  = Ok (with_parent_keys ti qT)))
    as (qT & HqT & Hpguard & Hafter).
  { destruct (any_key_startswith "spark.openlineage.transport" properties)
      eqn:Hguard.
    - exists properties. rewrite inject_transport_guarded by done.
      do 2 (split; [done|]). intros ti _.
      rewrite inject_transport_guarded; [done|].
      by rewrite transport_guard_with_parent_keys.
    - destruct Hbranch as [?|[Hkind Hfin]]; [done|].
      destruct (to_int_finite _ Hfin) as [millis Hint].
      exists (http_transport_properties client_transport millis ∪ properties).
      rewrite (inject_transport_http _ _ _ millis) by done.
      split; [done|]. split; [apply parent_guard_with_transport_keys|].
      intros ti _. rewrite (inject_transport_http _ _ _ millis); try done.
      + unfold dict_merge. simpl. by rewrite with_parent_keys_union.
      + by rewrite transport_guard_with_parent_keys. }
  rewrite HqT.
  destruct (any_key_startswith "spark.openlineage.parent" properties)
    eqn:Hparent.
  { rewrite !inject_parent_guarded by congruence. done. }
  destruct (context !! "ti") as [ti|] eqn:Hti.
  - rewrite !(inject_parent_fresh _ _ _ _ _ ti) by congruence. simpl.
    by apply Hafter.
  - rewrite !inject_parent_no_ti by congruence. done.
Qed.

(** X8. In the branch for other kinds the order matters: with a transport
    whose kind is not ["http"], properties without a transport key and a
    context holding ["ti"], injecting the parent job and then the
    transport returns the empty mapping, the parent keys included in what
    is dropped, while injecting the transport and then the parent job
    returns exactly the three parent keys. *)
Theorem injectors_order_matters properties (context : gmap string Object) ti :
  any_key_startswith "spark.openlineage.transport" properties = false ->
  kind client_transport <> "http" ->
  context !! "ti" = Some ti ->
  (bind (inject_parent_job_information_into_spark_properties
           lineage_job_namespace lineage_job_name lineage_run_id
           properties context)
     (fun q => inject_transport_information_into_spark_properties
                 client_transport q context)).2
  = Ok ∅
  /\ (bind (inject_transport_information_into_spark_properties
              client_transport properties context)
        (fun q => inject_parent_job_information_into_spark_properties
                    lineage_job_namespace lineage_job_name lineage_run_id
                    q context)).2
     = Ok {[ "spark.openlineage.parentJobNamespace" := lineage_job_namespace;
             "spark.openlineage.parentJobName" := lineage_job_name ti;
             "spark.openlineage.parentRunId" := lineage_run_id ti ]}.
Proof.
  intros Hguard Hkind Hti. rewrite !bind_result. split.
  - destruct (any_key_startswith "spark.openlineage.parent" properties)
      eqn:Hparent.
    + rewrite inject_parent_guarded by done. simpl.
      by rewrite inject_transport_other_kind.
    + rewrite (inject_parent_fresh _ _ _ _ _ ti) by done. simpl.
      rewrite inject_transport_other_kind; [done| |done].
      by rewrite transport_guard_with_parent_keys.
  - rewrite inject_transport_other_kind by done. simpl.
    by rewrite (inject_parent_fresh _ _ _ _ _ ti).
Qed.

End Sequence.

(** ** The exported names, whatever is installed *)

Section Exported.
Context {Object : Type}.
Variable installed : Installed Object.
Hypothesis no_utils_spark : utils_spark installed = None.

(** The legacy parent injection only ever extends its input. *)
Lemma inject_parent_extends ns name run
  properties (context : gmap string Object) q :
  (inject_parent_job_information_into_spark_properties
     ns name run properties context).2 = Ok q ->
  properties ⊆ q.
Proof.
  destruct (any_key_startswith "spark.openlineage.parent" properties)
    eqn:Hguard.
  { rewrite inject_parent_guarded by done. by intros [= <-]. }
  destruct (context !! "ti") as [ti|] eqn:Hti.
  2: { by rewrite inject_parent_no_ti. }
  rewrite (inject_parent_fresh _ _ _ _ _ ti) by done. intros [= <-].
  assert (forall k, startswith k "spark.openlineage.parent" = true ->
                    properties !! k = None) as Hfree
    by (intros k; by apply any_key_startswith_lookup).
  repeat apply insert_subseteq_r; try done.
  all: rewrite ?lookup_insert_ne by done; by apply Hfree.
Qed.

(** X9. Without the unified module, the exported parent injection degrades
    gracefully: whether or not the macros import, a call that returns
    gives a mapping that extends its input; it returns whenever the
    context holds ["ti"]; and when the macros do not import it returns its
    input for every context, logging one warning on each call. *)
Theorem exported_inject_parent_extends
  properties (context : gmap string Object) :
  (forall q,
     (exported_inject_parent (load_module installed) properties context).2
     = Ok q ->
     properties ⊆ q)
  /\ (is_Some (context !! "ti") ->
      exists q,
        (exported_inject_parent (load_module installed) properties context).2
        = Ok q)
  /\ (plugins_macros installed = None ->
      exported_inject_parent (load_module installed) properties context
      = ([LogWarning macros_missing_msg], Ok properties)).
Proof.
  unfold load_module. rewrite no_utils_spark. cbn [exported_inject_parent].
  destruct (plugins_macros installed) as [macros|];
    cbn [of_legacy snd inject_parent_job_information_unavailable].
  - split; [|split; [|done]].
    + intros q. apply inject_parent_extends.
    + intros [ti Hti].
      destruct (any_key_startswith "spark.openlineage.parent" properties)
        eqn:Hguard.
      * exists properties. by rewrite inject_parent_guarded.
      * eexists. by rewrite (inject_parent_fresh _ _ _ _ _ ti).
  - split; [by intros q [= <-]|]. split; [by eexists|done].
Qed.

(** X10. Without the unified module, the exported transport injection either
    extends its input or returns the empty mapping, and the latter only
    when the listener imports and its transport is not of kind ["http"];
    when the listener does not import it returns its input, logging one
    warning on each call. *)
Theorem exported_inject_transport_extends_or_empties
  properties (context : gmap string Object) :
  (forall q,
     (exported_inject_transport (load_module installed) properties context).2
     = Ok q ->
     properties ⊆ q
     \/ q = ∅
        /\ exists transport,
             plugins_listener installed = Some transport
             /\ kind transport <> "http")
  /\ (plugins_listener installed = None ->
      exported_inject_transport (load_module installed) properties context
      = ([LogWarning listener_missing_msg], Ok properties)).
Proof.
  unfold load_module. rewrite no_utils_spark. cbn [exported_inject_transport].
  destruct (plugins_listener installed) as [transport|];
    cbn [of_legacy snd inject_transport_information_unavailable].
  - split; [|done]. intros q Hq.
    destruct (any_key_startswith "spark.openlineage.transport" properties)
      eqn:Hguard.
    { rewrite inject_transport_guarded in Hq by done. injection Hq as <-.
      by left. }
    destruct (decide (kind transport = "http")) as [Hkind|Hkind].
    + left.
      destruct (inject_transport_http_inv _ _ _ _ Hguard Hkind Hq)
        as (millis & _ & ->).
      apply map_union_subseteq_r. by apply http_transport_properties_disjoint.
    + right. rewrite inject_transport_other_kind in Hq by done.
      injection Hq as <-. split; [done|]. by exists transport.
  - split; [|done]. intros q [= <-]. by left.
Qed.

End Exported.

(** ** Nothing else is added *)

Lemma add_custom_headers_lookup_inv key v headers (d : gmap string string) :
  add_custom_headers headers d !! key = Some v ->
  d !! key = Some v
  \/ exists h, key = "spark.openlineage.transport.headers." ++ h
               /\ (h, v) ∈ headers.
Proof.
  revert d. induction headers as [|[k w] headers IH]; intros d; [by left|].
  unfold add_custom_headers in *. cbn [foldl fst snd]. intros H.
  apply IH in H as [H|(h & -> & Hin)].
  - apply lookup_insert_Some in H as [[<- <-]|[_ H]]; [|by left].
    right. exists k. split; [done|]. by left.
  - right. exists h. split; [done|]. by right.
Qed.

Section TransportKeys.
Context {Object : Type}.
Variable client_transport : Transport.

(** X4. The key families of the http branch are all there is: a key of the
    output is a key of the input, one of the four base keys, the
    compression key (only for a truthy compression), one of the two auth
    keys (only with an [api_key] attribute and a truthy bearer token), or
    the key of one of the custom headers. *)
Theorem inject_transport_key_families
  properties (context : gmap string Object) q k :
  any_key_startswith "spark.openlineage.transport" properties = false ->
  kind client_transport = "http" ->
  (inject_transport_information_into_spark_properties
     client_transport properties context).2 = Ok q ->
  is_Some (q !! k) ->
  is_Some (properties !! k)
  \/ k ∈ [ "spark.openlineage.transport.type";
           "spark.openlineage.transport.url";
           "spark.openlineage.transport.endpoint";
           "spark.openlineage.transport.timeoutInMillis" ]
  \/ k = "spark.openlineage.transport.compression"
     /\ truthy (compression client_transport) = true
  \/ (k = "spark.openlineage.transport.auth.type"
      \/ k = "spark.openlineage.transport.auth.apiKey")
     /\ has_api_key (auth (config client_transport)) = true
     /\ truthy (get_bearer (auth (config client_transport))) = true
  \/ exists h v,
       k = "spark.openlineage.transport.headers." ++ h
       /\ (h, v) ∈ default [] (custom_headers (config client_transport)).
Proof.
  intros Hguard Hkind Hq Hk.
  destruct (inject_transport_http_inv _ _ _ _ Hguard Hkind Hq)
    as (millis & _ & ->).
  apply lookup_union_is_Some in Hk as [[v Hv]|Hk]; [|by left].
  right. unfold http_transport_properties in Hv.
  assert (with_auth client_transport
            (with_compression client_transport
               (base_properties client_transport millis)) !! k = Some v
          \/ exists h,
               k = "spark.openlineage.transport.headers." ++ h
               /\ (h, v) ∈ default [] (custom_headers (config client_transport)))
    as [Hrest|(h & -> & Hin)].
  { unfold with_custom_headers in Hv.
    destruct (custom_headers (config client_transport)) as [[|h hs]|];
      cbn [default]; auto.
    by apply add_custom_headers_lookup_inv. }
  2: { do 3 right. by exists h, v. }
  clear Hv. unfold with_auth in Hrest.
  assert (with_compression client_transport
            (base_properties client_transport millis) !! k = Some v
          \/ (k = "spark.openlineage.transport.auth.type"
              \/ k = "spark.openlineage.transport.auth.apiKey")
             /\ has_api_key (auth (config client_transport)) = true
             /\ truthy (get_bearer (auth (config client_transport))) = true)
    as [Hrest'|Hauth].
  { destruct (has_api_key (auth (config client_transport))); [|by left].
    destruct (truthy (get_bearer (auth (config client_transport))));
      [|by left].
    cbn [andb] in Hrest.
    destruct (get_bearer (auth (config client_transport))); [|by left].
    apply lookup_insert_Some in Hrest as [[<- _]|[_ Hrest]]; [by auto|].
    apply lookup_insert_Some in Hrest as [[<- _]|[_ Hrest]]; [by auto|].
    by left. }
  2: { right; right; left. done. }
  clear Hrest. unfold with_compression in Hrest'.
  assert (base_properties client_transport millis !! k = Some v
          \/ k = "spark.openlineage.transport.compression"
             /\ truthy (compression client_transport) = true)
    as [Hbase|Hcomp].
  { destruct (compression client_transport) as [c|]; [|by left].
    destruct (truthy (Some c)) eqn:Htruthy; [|by left].
    apply lookup_insert_Some in Hrest' as [[<- _]|[_ Hrest']]; [by right|].
    by left. }
  2: { right; left. done. }
  left. unfold base_properties, dict_display in Hbase.
  cbn [foldl fst snd] in Hbase.
  repeat (apply lookup_insert_Some in Hbase as [[<- _]|[_ Hbase]];
          [set_solver|]).
  done.
Qed.

End TransportKeys.

Lemma inject_transport_key_families_witness :
  any_key_startswith "spark.openlineage.transport" {[ "a" := "b" ]} = false
  /\ kind sample_http = "http"
  /\ exists q,
       (sample_inject_transport sample_http {[ "a" := "b" ]}
          sample_context).2 = Ok q
       /\ forall k,
            is_Some (q !! k) ->
            is_Some (({[ "a" := "b" ]} : gmap string string) !! k)
            \/ k ∈ [ "spark.openlineage.transport.type";
                     "spark.openlineage.transport.url";
                     "spark.openlineage.transport.endpoint";
                     "spark.openlineage.transport.timeoutInMillis" ]
            \/ k = "spark.openlineage.transport.compression"
               /\ truthy (compression sample_http) = true
            \/ (k = "spark.openlineage.transport.auth.type"
                \/ k = "spark.openlineage.transport.auth.apiKey")
               /\ has_api_key (auth (config sample_http)) = true
               /\ truthy (get_bearer (auth (config sample_http))) = true
            \/ exists h v,
                 k = "spark.openlineage.transport.headers." ++ h
                 /\ (h, v) ∈ default [] (custom_headers (config sample_http)).
Proof.
  do 2 (split; [reflexivity|]). eexists. split; [reflexivity|].
  intros k.
  apply (inject_transport_key_families sample_http {[ "a" := "b" ]}
           sample_context); reflexivity.
Defined.

(** ** The further properties at concrete inputs *)

Lemma inject_transport_compression_witness :
  any_key_startswith "spark.openlineage.transport" {[ "a" := "b" ]} = false
  /\ kind sample_http_full = "http"
  /\ exists q,
       (sample_inject_transport sample_http_full {[ "a" := "b" ]}
          sample_context).2 = Ok q
       /\ q !! "spark.openlineage.transport.compression" = Some "gzip".
Proof.
  do 2 (split; [reflexivity|]). eexists. split; [reflexivity|].
  apply (inject_transport_compression sample_http_full {[ "a" := "b" ]}
           sample_context); reflexivity.
Defined.

Lemma inject_transport_custom_headers_witness :
  any_key_startswith "spark.openlineage.transport" {[ "a" := "b" ]} = false
  /\ kind sample_http_full = "http"
  /\ NoDup (default [] (custom_headers (config sample_http_full))).*1
  /\ exists q,
       (sample_inject_transport sample_http_full {[ "a" := "b" ]}
          sample_context).2 = Ok q
       /\ q !! "spark.openlineage.transport.headers.X-Foo" = Some "bar".
Proof.
  assert (NoDup (default [] (custom_headers (config sample_http_full))).*1)
    as Hnodup by apply NoDup_singleton.
  do 2 (split; [reflexivity|]). split; [exact Hnodup|].
  eexists. split; [reflexivity|].
  apply (inject_transport_custom_headers sample_http_full {[ "a" := "b" ]}
           sample_context _ "X-Foo" "bar");
    [reflexivity | reflexivity | exact Hnodup | reflexivity |].
  apply list_elem_of_singleton. reflexivity.
Defined.

Lemma inject_transport_preserves_input_witness :
  kind sample_http_full = "http"
  /\ exists q,
       (sample_inject_transport sample_http_full {[ "a" := "b" ]}
          sample_context).2 = Ok q
       /\ ({[ "a" := "b" ]} : gmap string string) ⊆ q.
Proof.
  split; [reflexivity|]. eexists. split; [reflexivity|].
  apply (inject_transport_preserves_input sample_http_full {[ "a" := "b" ]}
           sample_context); [right|]; reflexivity.
Defined.

Lemma inject_transport_timeout_truncates_witness :
  any_key_startswith "spark.openlineage.transport" ∅ = false
  /\ kind sample_http_negative = "http"
  /\ PyFloat.mul (timeout sample_http_negative) (PyFloat.of_int 1000)
     = S754_finite true 4503599627370496 (-53)
  /\ exists q,
       (sample_inject_transport sample_http_negative ∅ sample_context).2
       = Ok q
       /\ q !! "spark.openlineage.transport.timeoutInMillis" = Some "0".
Proof.
  do 3 (split; [reflexivity|]).
  exact (inject_transport_timeout_truncates (Object:=string)
           sample_http_negative ∅ sample_context _ eq_refl eq_refl eq_refl).
Defined.

Lemma injectors_commute_witness :
  kind sample_http_full = "http"
  /\ PyFloat.is_finite
       (PyFloat.mul (timeout sample_http_full) (PyFloat.of_int 1000)) = true
  /\ (bind (sample_inject_parent {[ "a" := "b" ]} sample_context)
        (fun q => sample_inject_transport sample_http_full q sample_context)).2
     = (bind (sample_inject_transport sample_http_full {[ "a" := "b" ]}
                sample_context)
          (fun q => sample_inject_parent q sample_context)).2.
Proof.
  do 2 (split; [reflexivity|]).
  apply (injectors_commute "ns" sample_job_name sample_run_id
           sample_http_full {[ "a" := "b" ]} sample_context).
  right. split; reflexivity.
Defined.

Lemma injectors_order_matters_witness :
  any_key_startswith "spark.openlineage.transport" {[ "a" := "b" ]} = false
  /\ kind sample_kafka <> "http"
  /\ sample_context !! "ti" = Some "task_1"
  /\ (bind (sample_inject_parent {[ "a" := "b" ]} sample_context)
        (fun q => sample_inject_transport sample_kafka q sample_context)).2
     = Ok ∅
  /\ (bind (sample_inject_transport sample_kafka {[ "a" := "b" ]}
              sample_context)
        (fun q => sample_inject_parent q sample_context)).2
     = Ok {[ "spark.openlineage.parentJobNamespace" := "ns";
             "spark.openlineage.parentJobName" := "job";
             "spark.openlineage.parentRunId" := "run-1" ]}.
Proof.
  split; [reflexivity|]. split; [discriminate|]. split; [reflexivity|].
  apply (injectors_order_matters "ns" sample_job_name sample_run_id
           sample_kafka {[ "a" := "b" ]} sample_context "task_1");
    [reflexivity | discriminate | reflexivity].
Defined.

Lemma exported_inject_parent_extends_witness :
  utils_spark sample_installed_legacy = None
  /\ utils_spark sample_installed_nothing = None
  /\ (exists q,
        (exported_inject_parent (load_module sample_installed_legacy)
           {[ "a" := "b" ]} sample_context).2 = Ok q
        /\ ({[ "a" := "b" ]} : gmap string string) ⊆ q)
  /\ exported_inject_parent (load_module sample_installed_nothing)
       {[ "a" := "b" ]} ∅
     = ([LogWarning macros_missing_msg], Ok {[ "a" := "b" ]}).
Proof.
  do 2 (split; [reflexivity|]). split.
  - eexists. split; [reflexivity|].
    apply (exported_inject_parent_extends sample_installed_legacy eq_refl
             {[ "a" := "b" ]} sample_context).
    reflexivity.
  - apply (exported_inject_parent_extends sample_installed_nothing eq_refl
             {[ "a" := "b" ]} ∅).
    reflexivity.
Defined.

Lemma exported_inject_transport_extends_or_empties_witness :
  utils_spark sample_installed_legacy = None
  /\ utils_spark sample_installed_nothing = None
  /\ (exported_inject_transport (load_module sample_installed_legacy)
        {[ "a" := "b" ]} sample_context).2 = Ok ∅
  /\ exported_inject_transport (load_module sample_installed_nothing)
       {[ "a" := "b" ]} sample_context
     = ([LogWarning listener_missing_msg], Ok {[ "a" := "b" ]}).
Proof.
  do 3 (split; [reflexivity|]).
  apply (exported_inject_transport_extends_or_empties
           sample_installed_nothing eq_refl {[ "a" := "b" ]} sample_context).
  reflexivity.
Defined.

Lemma inject_transport_raises_iff_witness :
  any_key_startswith "spark.openlineage.transport" ∅ = false
  /\ kind sample_http_inf = "http"
  /\ PyFloat.mul (timeout sample_http_inf) (PyFloat.of_int 1000)
     = S754_infinity false
  /\ (sample_inject_transport sample_http_inf ∅ sample_context).2
     = Raise (OverflowError "cannot convert float infinity to integer").
Proof.
  do 3 (split; [reflexivity|]).
  apply (proj1 (inject_transport_raises_iff (Object:=string)
                  sample_http_inf ∅ sample_context
                  (OverflowError "cannot convert float infinity to integer"))).
  split; [reflexivity|]. split; [reflexivity|].
  left. split; [by exists false|reflexivity].
Defined.
